(** * The PTY helper of the Obsidian agent client

    A shallow embedding of [src/infrastructure/pty/pty-helper.py]: the
    [PtyHelper] class, its event loop and [main].

    The helper talks to the operating system and to Python's standard
    library on every line.  The embedding keeps the repository's own logic
    as Rocq functions in a state-and-exception monad and takes every call
    that leaves the file as an answer of the environment:

    - [Lib] holds the pure library functions ([json.loads], [str()],
      the UTF-8 codecs, [struct.pack]);
    - [OS] holds the system calls ([select], [os.read], [pty.fork],
      [os.kill], [os.waitpid], ...), each of which may return a value or
      raise, and each of which moves the state of the outside world.

    Conventions:

    - the events of the protocol are recorded in [sent] when they are
      handed to [_send]; whether the write to [sys.stdout] succeeded is the
      environment's answer, which [_send] ignores as the source does;
    - [while True] is followed for a given number of rounds; a run that has
      not left the loop by then ends as [StillLooping];
    - an interrupt reaches the program as [KeyboardInterrupt] raised by a
      system call;
    - in the child of [pty.fork] the same program goes on, until [execvpe]
      replaces it ([Execed]) or raises.

    Theorems hold for every [Lib] and every [OS]; examples run the helper
    against a scripted one. *)

From Stdlib Require Import ZArith NArith Lia String Ascii.
From stdpp Require Import base option list gmap.

Open Scope Z_scope.

(** ** Python values *)

(** A Python [str] is a sequence of code points; [bytes] is a sequence of
    bytes. *)
Definition str := list N.
Definition bytes := list Byte.byte.

(** An ASCII literal of the source, as a [str]. *)
Definition lit (s : string) : str := N_of_ascii <$> list_ascii_of_string s.

Definition NL : N := 10.
Definition DQUOTE : N := 34.

(** What [json.loads] can return: [None], [bool], [int], [float], [str],
    [list] and [dict] (whose keys are always [str]).  A float is kept as the
    text it was read from; the helper never computes with one. *)
#[warnings="-register-all"]
Inductive json :=
| JNull
| JBool (b : bool)
| JInt (z : Z)
| JFloat (lexeme : str)
| JStr (s : str)
| JArr (l : list json)
| JObj (d : gmap (list N) json).

(** [type(v).__name__] *)
Definition type_name (v : json) : str :=
  match v with
  | JNull => lit "NoneType"
  | JBool _ => lit "bool"
  | JInt _ => lit "int"
  | JFloat _ => lit "float"
  | JStr _ => lit "str"
  | JArr _ => lit "list"
  | JObj _ => lit "dict"
  end.

(** [v == s] for a [str] literal [s]: only an equal [str] is equal to it. *)
Definition py_eq_str (v : json) (s : str) : bool :=
  match v with
  | JStr t => bool_decide (t = s)
  | _ => false
  end.

(** ** Exceptions *)

Inductive exn_class :=
| OSError
| BlockingIOError
| BrokenPipeError
| ChildProcessError
| FileNotFoundError
| PermissionError
| ProcessLookupError
| ValueError
| JSONDecodeError
| UnicodeEncodeError
| TypeError
| AttributeError
| StructError
| RecursionError
| KeyboardInterrupt.

#[global] Instance exn_class_eq_dec : EqDecision exn_class.
Proof. solve_decision. Defined.

(** An exception: its class and [str(e)]. *)
Record exn := Exn { exn_cls : exn_class; exn_text : str }.

(** [issubclass c OSError]; [select.error] is an alias of [OSError]. *)
Definition is_OSError (c : exn_class) : bool :=
  match c with
  | OSError | BlockingIOError | BrokenPipeError | ChildProcessError
  | FileNotFoundError | PermissionError | ProcessLookupError => true
  | _ => false
  end.

(** [issubclass c ValueError] *)
Definition is_ValueError (c : exn_class) : bool :=
  match c with
  | ValueError | JSONDecodeError | UnicodeEncodeError => true
  | _ => false
  end.

(** [issubclass c Exception]: everything here but [KeyboardInterrupt]. *)
Definition is_Exception (c : exn_class) : bool :=
  match c with
  | KeyboardInterrupt => false
  | _ => true
  end.

Definition isinstance (e : exn) (p : exn_class -> bool) : bool := p (exn_cls e).

Definition is_class (c : exn_class) : exn_class -> bool :=
  fun c' => bool_decide (c' = c).

(** The answer of a call that leaves the file: a value or an exception. *)
Inductive answer (A : Type) :=
| Ret (a : A)
| Exc (e : exn).
Arguments Ret {A} a.
Arguments Exc {A} e.

(** ** The pure library functions *)

Record Lib := {
  (** [json.loads(line)] *)
  json_loads : str -> answer json;
  (** [str(v)], as an f-string formats [{v}] *)
  py_str : json -> str;
  (** [b.decode('utf-8', errors='replace')] *)
  decode_replace : bytes -> str;
  (** [s.encode('utf-8')] *)
  encode_utf8 : str -> answer bytes;
  (** [struct.pack('HHHH', rows, cols, 0, 0)] *)
  struct_pack_HHHH : json -> json -> Z -> Z -> answer bytes
}.

(** ** Events sent to the plugin *)

Inductive event :=
| Spawned (pid : Z)
| Output (data : str)
| Exit (code : Z)
| Error (message : str)
| Killed.

#[global] Instance event_eq_dec : EqDecision event.
Proof. solve_decision. Defined.

(** ** The operating system *)

(** Each call takes the state of the outside world and returns its answer
    with the next state.  [os_execvpe] answers [None] when the process image
    was replaced, and the exception otherwise. *)
Record OS (W : Type) := {
  environ : gmap (list N) (list N);
  O_NONBLOCK : Z;
  os_getcwd : W -> answer str * W;
  pty_fork : W -> answer (Z * Z) * W;
  os_chdir : json -> W -> answer unit * W;
  os_execvpe : json -> list json -> gmap (list N) json -> W -> option exn * W;
  fcntl_GETFL : Z -> W -> answer Z * W;
  fcntl_SETFL : Z -> Z -> W -> answer unit * W;
  ioctl_TIOCSWINSZ : Z -> bytes -> W -> answer unit * W;
  os_write : Z -> bytes -> W -> answer Z * W;
  os_kill : Z -> Z -> W -> answer unit * W;
  os_waitpid : Z -> W -> answer (Z * Z) * W;
  select_select : list Z -> W -> answer (list Z) * W;
  os_read : Z -> Z -> W -> answer bytes * W;
  (** [sys.stdout.write(json.dumps(msg) + '\n'); sys.stdout.flush()]:
      [false] when it raised [OSError] *)
  stdout_write : event -> W -> bool * W;
  (** the flush of [sys.stdout] and [sys.stderr] by the interpreter as it
      shuts down: [false] when it fails, as it does when a write that raised
      is still buffered and cannot be written then either *)
  flush_std_files : W -> bool
}.
Arguments environ {W} _.
Arguments O_NONBLOCK {W} _.
Arguments os_getcwd {W} _ _.
Arguments pty_fork {W} _ _.
Arguments os_chdir {W} _ _ _.
Arguments os_execvpe {W} _ _ _ _ _.
Arguments fcntl_GETFL {W} _ _ _.
Arguments fcntl_SETFL {W} _ _ _ _.
Arguments ioctl_TIOCSWINSZ {W} _ _ _ _.
Arguments os_write {W} _ _ _ _.
Arguments os_kill {W} _ _ _ _.
Arguments os_waitpid {W} _ _ _.
Arguments select_select {W} _ _ _.
Arguments os_read {W} _ _ _ _.
Arguments stdout_write {W} _ _ _.
Arguments flush_std_files {W} _ _.

Definition SIGTERM : Z := 15.

(** The wait-status macros of [os], as the C library defines them. *)
Definition signed_char (z : Z) : Z :=
  let m := z mod 256 in if 128 <=? m then m - 256 else m.
Definition WIFEXITED (status : Z) : bool := Z.land status 127 =? 0.
Definition WEXITSTATUS (status : Z) : Z := Z.land (Z.shiftr status 8) 255.
Definition WIFSIGNALED (status : Z) : bool :=
  0 <? Z.shiftr (signed_char (Z.land status 127 + 1)) 1.
Definition WTERMSIG (status : Z) : Z := Z.land status 127.

(** ** The helper's state *)

(** The fields of [PtyHelper] ([__init__], l.34-37). *)
Record PtyHelper := {
  master_fd : option Z;
  pid : option Z;
  running : bool
}.

Definition PtyHelper_init : PtyHelper :=
  {| master_fd := None; pid := None; running := false |}.

(** The helper together with what it has handed to [_send] so far, what
    it has written to [sys.stderr], and the outside world. *)
Record world (W : Type) := {
  self : PtyHelper;
  sent : list event;
  stderr : list str;
  outside : W
}.
Arguments self {W} _.
Arguments sent {W} _.
Arguments stderr {W} _.
Arguments outside {W} _.

(** How a piece of the program ends: it returns, it raises, or (in the
    forked child) [execvpe] has replaced the program. *)
Inductive outcome (A : Type) :=
| Done (a : A)
| Raised (e : exn)
| Execed.
Arguments Done {A} a.
Arguments Raised {A} e.
Arguments Execed {A}.

(** [break] and falling through to the next round of [while True]. *)
Inductive loop_ctl :=
| Break
| Continue (buffer : str).

(** How [run] stands after a number of rounds. *)
Inductive run_end :=
| Returned
| StillLooping (buffer : str).

(** How the process stands after [main]. *)
Inductive ending :=
| Exited (status : Z)
| Replaced
| Looping.

(** ** Text helpers of the loop *)

(** [str.isspace] on one character, as [str.strip()] uses it. *)
Definition is_space (c : N) : bool :=
  ((9 <=? c) && (c <=? 13) || (28 <=? c) && (c <=? 32)
   || (c =? 133) || (c =? 160) || (c =? 5760)
   || (8192 <=? c) && (c <=? 8202)
   || (c =? 8232) || (c =? 8233) || (c =? 8239) || (c =? 8287)
   || (c =? 12288))%N.

(** The truth value of [line.strip()]: some character is not white space. *)
Definition strip_nonempty (line : str) : bool :=
  existsb (fun c => negb (is_space c)) line.

(** [buffer.split('\n', 1)] when ['\n' in buffer]. *)
Fixpoint split_newline (buffer : str) : option (str * str) :=
  match buffer with
  | [] => None
  | c :: rest =>
      if (c =? NL)%N then Some ([], rest)
      else match split_newline rest with
           | Some (line, rest') => Some (c :: line, rest')
           | None => None
           end
  end.

(** ** The monad of the helper *)

Definition M (W : Type) (A : Type) : Type := world W -> outcome A * world W.

#[global] Instance M_ret {W} : MRet (M W) := fun A a w => (Done a, w).

#[global] Instance M_bind {W} : MBind (M W) := fun A B k m w =>
  match m w with
  | (Done a, w') => k a w'
  | (Raised e, w') => (Raised e, w')
  | (Execed, w') => (Execed, w')
  end.

Definition raise {W A} (e : exn) : M W A := fun w => (Raised e, w).

(** [try: m  except <catches> as e: handler e] *)
Definition try_except {W A} (m : M W A) (catches : exn_class -> bool)
    (handler : exn -> M W A) : M W A :=
  fun w =>
    match m w with
    | (Raised e, w') =>
        if isinstance e catches then handler e w' else (Raised e, w')
    | r => r
    end.

Definition with_outside {W} (w : world W) (o : W) : world W :=
  {| self := self w; sent := sent w; stderr := stderr w; outside := o |}.

(** A call of the operating system. *)
Definition call {W A} (f : W -> answer A * W) : M W A :=
  fun w =>
    let '(a, o) := f (outside w) in
    match a with
    | Ret v => (Done v, with_outside w o)
    | Exc e => (Raised e, with_outside w o)
    end.

(** A call of a pure library function. *)
Definition pure_call {W A} (a : answer A) : M W A :=
  match a with
  | Ret v => mret v
  | Exc e => raise e
  end.

Definition get_self {W} : M W PtyHelper := fun w => (Done (self w), w).

Definition set_self {W} (f : PtyHelper -> PtyHelper) : M W unit :=
  fun w => (Done tt, {| self := f (self w); sent := sent w;
                        stderr := stderr w; outside := outside w |}).

Definition set_master_fd {W} (v : option Z) : M W unit :=
  set_self (fun h => {| master_fd := v; pid := pid h; running := running h |}).
Definition set_pid {W} (v : option Z) : M W unit :=
  set_self (fun h => {| master_fd := master_fd h; pid := v; running := running h |}).
Definition set_running {W} (v : bool) : M W unit :=
  set_self (fun h => {| master_fd := master_fd h; pid := pid h; running := v |}).

(** [pass] *)
Definition pass {W} : M W unit := mret tt.

(** ** The program *)

Section Program.

Context (lib : Lib) {W : Type} (os : OS W).

Definition stdin_fd : Z := 0.

(** [_send] (l.180-186).  The message is recorded as sent; the write to
    [sys.stdout] may fail with [OSError], which is swallowed. *)
Definition _send (msg : event) : M W unit :=
  fun w =>
    let '(_, o) := stdout_write os msg (outside w) in
    (Done tt, {| self := self w; sent := sent w ++ [msg];
                 stderr := stderr w; outside := o |}).

(** [_set_nonblocking] (l.188-191) *)
Definition _set_nonblocking (fd : Z) : M W unit :=
  flags ← call (fcntl_GETFL os fd);
  call (fcntl_SETFL os fd (Z.lor flags (O_NONBLOCK os))).

(** [{**os.environ, **env}] (l.41): [env] has to be a mapping; its entries
    win. *)
Definition merged_env (env : json) : M W (gmap (list N) json) :=
  match env with
  | JObj d => mret (d ∪ (JStr <$> environ os))
  | v => raise (Exn TypeError
                  (lit "'" ++ type_name v ++ lit "' object is not a mapping"))
  end.

(** [[cmd] + args] (l.51): [args] has to be a list. *)
Definition argv_of (cmd args : json) : M W (list json) :=
  match args with
  | JArr l => mret (cmd :: l)
  | v => raise (Exn TypeError
                  (lit "can only concatenate list (not " ++ [DQUOTE]
                   ++ type_name v ++ [DQUOTE] ++ lit ") to list"))
  end.

(** [os.execvpe(cmd, argv, env)]: the call does not return; either the
    program is replaced or it raises. *)
Definition execvpe (cmd : json) (argv : list json) (env : gmap (list N) json)
    : M W unit :=
  fun w =>
    match os_execvpe os cmd argv env (outside w) with
    | (None, o) => (Execed, with_outside w o)
    | (Some e, o) => (Raised e, with_outside w o)
    end.

(** [spawn] (l.39-56) *)
Definition spawn (cmd args cwd env : json) : M W unit :=
  menv ← merged_env env;
  '(p, fd) ← call (pty_fork os);
  set_pid (Some p);;
  set_master_fd (Some fd);;
  if p =? 0 then
    (* Child process *)
    try_except (call (os_chdir os cwd)) is_OSError (fun _ => pass);;
    argv ← argv_of cmd args;
    execvpe cmd argv menv
  else
    (* Parent process *)
    set_running true;;
    _set_nonblocking fd;;
    _send (Spawned p).

(** [resize] (l.58-65) *)
Definition resize (cols rows : json) : M W unit :=
  h ← get_self;
  match master_fd h with
  | Some fd =>
      try_except
        (winsize ← pure_call (struct_pack_HHHH lib rows cols 0 0);
         call (ioctl_TIOCSWINSZ os fd winsize))
        is_OSError (fun _ => pass)
  | None => pass
  end.

(** [data.encode('utf-8')]: only a [str] has the method. *)
Definition encode (data : json) : M W bytes :=
  match data with
  | JStr s => pure_call (encode_utf8 lib s)
  | v => raise (Exn AttributeError
                  (lit "'" ++ type_name v
                   ++ lit "' object has no attribute 'encode'"))
  end.

(** [write] (l.67-73) *)
Definition write (data : json) : M W unit :=
  h ← get_self;
  match master_fd h with
  | Some fd =>
      try_except
        (b ← encode data;
         call (os_write os fd b);;
         pass)
        is_OSError
        (fun e => _send (Error (lit "Write failed: " ++ exn_text e)))
  | None => pass
  end.

(** [kill] (l.75-83) *)
Definition kill : M W unit :=
  h ← get_self;
  match pid h with
  | Some p =>
      try_except (call (os_kill os p SIGTERM))
        (is_class ProcessLookupError) (fun _ => pass)
  | None => pass
  end;;
  set_running false;;
  _send Killed.

(** The exit code computed at l.166-171. *)
Definition exit_code (status : Z) : Z :=
  if WIFEXITED status then WEXITSTATUS status
  else if WIFSIGNALED status then - WTERMSIG status
  else -1.

(** [_check_exit] (l.160-178); the call passes [os.WNOHANG]. *)
Definition _check_exit : M W unit :=
  h ← get_self;
  match pid h with
  | Some p =>
      try_except
        ('(p', status) ← call (os_waitpid os p);
         if negb (p' =? 0) then
           _send (Exit (exit_code status));;
           set_running false;;
           set_pid None
         else pass)
        (is_class ChildProcessError)
        (fun _ =>
           _send (Exit (-1));;
           set_running false;;
           set_pid None)
  | None => pass
  end.

(** [cmd.get(key, default)] on a [dict]. *)
Definition dict_get (d : gmap (list N) json) (key : str) (default : json) : json :=
  match d !! key with
  | Some v => v
  | None => default
  end.

(** [_handle_command] (l.134-158) *)
Definition _handle_command (line : str) : M W unit :=
  r ← try_except
         (cmd ← pure_call (json_loads lib line) ; mret (Some cmd))
         (is_class JSONDecodeError)
         (fun e =>
            _send (Error (lit "Invalid JSON: " ++ exn_text e));;
            mret None);
  match r with
  | None => pass
  | Some (JObj cmd) =>
      let cmd_type := dict_get cmd (lit "type") JNull in
      if py_eq_str cmd_type (lit "spawn") then
        cwd ← call (os_getcwd os);
        spawn (dict_get cmd (lit "cmd") (JStr []))
              (dict_get cmd (lit "args") (JArr []))
              (dict_get cmd (lit "cwd") (JStr cwd))
              (dict_get cmd (lit "env") (JObj ∅))
      else if py_eq_str cmd_type (lit "write") then
        write (dict_get cmd (lit "data") (JStr []))
      else if py_eq_str cmd_type (lit "resize") then
        resize (dict_get cmd (lit "cols") (JInt 80))
               (dict_get cmd (lit "rows") (JInt 24))
      else if py_eq_str cmd_type (lit "kill") then
        kill
      else
        _send (Error (lit "Unknown command: " ++ py_str lib cmd_type))
  | Some v =>
      raise (Exn AttributeError
               (lit "'" ++ type_name v ++ lit "' object has no attribute 'get'"))
  end.

(** The inner loop of l.109-112: while the buffer holds a newline, cut the
    first line off and dispatch it unless it is blank.  Every round removes
    at least the newline, so [length buffer] rounds are enough
    ([dispatch_lines_complete]). *)
Fixpoint dispatch_lines (rounds : nat) (buffer : str) : M W str :=
  match rounds with
  | O => mret buffer
  | S rounds' =>
      match split_newline buffer with
      | Some (line, rest) =>
          (if strip_nonempty line then _handle_command line else pass);;
          dispatch_lines rounds' rest
      | None => mret buffer
      end
  end.

(** l.102-114: input from the plugin. *)
Definition read_commands (readable : list Z) (buffer : str) : M W loop_ctl :=
  if bool_decide (stdin_fd ∈ readable) then
    try_except
      (chunk ← call (os_read os stdin_fd 4096);
       match chunk with
       | [] => mret Break
       | _ =>
           let buffer' := buffer ++ decode_replace lib chunk in
           rest ← dispatch_lines (length buffer') buffer';
           mret (Continue rest)
       end)
      is_OSError (fun _ => mret Break)
  else mret (Continue buffer).

(** l.116-128: output from the PTY. *)
Definition read_output (readable : list Z) : M W unit :=
  h ← get_self;
  match master_fd h with
  | Some fd =>
      if bool_decide (fd ∈ readable) then
        try_except
          (data ← call (os_read os fd 16384);
           match data with
           | [] => _check_exit
           | _ => _send (Output (decode_replace lib data))
           end)
          is_OSError (fun _ => _check_exit)
      else pass
  | None => pass
  end.

(** The descriptors waited on (l.93-95). *)
Definition watched (h : PtyHelper) : list Z :=
  stdin_fd :: match master_fd h with
              | Some fd => [fd]
              | None => []
              end.

(** One round of [while True] (l.92-132). *)
Definition round (buffer : str) : M W loop_ctl :=
  h ← get_self;
  let fds := watched h in
  sel ← try_except
           (readable ← call (select_select os fds) ; mret (Some readable))
           (fun c => is_OSError c || is_ValueError c)
           (fun _ => mret None);
  match sel with
  | None => mret Break
  | Some readable =>
      c ← read_commands readable buffer;
      match c with
      | Break => mret Break
      | Continue buffer' =>
          read_output readable;;
          h' ← get_self;
          if bool_decide (pid h' ≠ None) && negb (running h')
          then mret Break
          else mret (Continue buffer')
      end
  end.

(** [while True] for at most [n] rounds. *)
Fixpoint loop (n : nat) (buffer : str) : M W run_end :=
  match n with
  | O => mret (StillLooping buffer)
  | S n' =>
      c ← round buffer;
      match c with
      | Break => mret Returned
      | Continue buffer' => loop n' buffer'
      end
  end.

(** [run] (l.85-132), followed for [n] rounds of its loop. *)
Definition run (n : nat) : M W run_end :=
  _set_nonblocking stdin_fd;;
  loop n [].

(** What [main] (l.194-202) does with the way [run] ended.  An exception
    that nothing catches ends the interpreter with status 1.  The status is
    the one [main] itself leaves with, whatever became of the writes to
    standard output: [_send] swallows their failures.  What the interpreter
    makes of it as it shuts down is [interpreter_exit] below. *)
Definition main_handlers (r : outcome run_end * world W) : ending * world W :=
  match r with
  | (Done Returned, w) => (Exited 0, w)
  | (Done (StillLooping _), w) => (Looping, w)
  | (Execed, w) => (Replaced, w)
  | (Raised e, w) =>
      if isinstance e (is_class KeyboardInterrupt) then
        match kill w with
        | (Done _, w') => (Exited 0, w')
        | (_, w') => (Exited 1, w')
        end
      else if isinstance e is_Exception then
        (Exited 1,
         {| self := self w; sent := sent w;
            stderr := stderr w
                      ++ [lit "PTY helper error: " ++ exn_text e ++ [NL]];
            outside := outside w |})
      else (Exited 1, w)
  end.

Definition start (o : W) : world W :=
  {| self := PtyHelper_init; sent := []; stderr := []; outside := o |}.

(** [main], with [run] followed for [n] rounds. *)
Definition main (n : nat) (o : W) : ending * world W :=
  main_handlers (run n (start o)).

(** The end of the interpreter after [main] has returned or [sys.exit] has
    been called (l.206, l.202): the standard streams are flushed once more,
    and when that fails the exit status is replaced by 120.  This is how a
    write that [_send] gave up on shows in the end. *)
Definition interpreter_exit (r : ending * world W) : ending * world W :=
  match r with
  | (Exited status, w) =>
      (Exited (if flush_std_files os (outside w) then status else 120), w)
  | r => r
  end.

End Program.

Arguments _send {W} os msg.
Arguments _check_exit {W} os.
Arguments kill {W} os.
Arguments spawn {W} os cmd args cwd env.
Arguments write lib {W} os data.
Arguments resize lib {W} os cols rows.
Arguments _handle_command lib {W} os line.
Arguments dispatch_lines lib {W} os rounds buffer.
Arguments read_commands lib {W} os readable buffer.
Arguments read_output lib {W} os readable.
Arguments round lib {W} os buffer.
Arguments loop lib {W} os n buffer.
Arguments run lib {W} os n.
Arguments main lib {W} os n o.
Arguments main_handlers {W} os r.
Arguments start {W} o.
Arguments interpreter_exit {W} os r.

(** ** A scripted environment for the examples *)

Module Script.

(** Source text with ['] standing for the double quote. *)
Definition text (s : string) : str :=
  (fun c => if (c =? 39)%N then DQUOTE else c) <$> lit s.

Definition raw (s : str) : bytes :=
  (fun c => match Byte.of_N c with Some b => b | None => Byte.x3f end) <$> s.

(** A library that covers ASCII text, which is all the examples use:
    [json.loads] is given by the table of the lines an example sends. *)
Definition ascii_lib (loads : list (str * json)) : Lib :=
  {| json_loads line :=
       match list_to_map (M := gmap (list N) json) loads !! line with
       | Some v => Ret v
       | None =>
           Exc (Exn JSONDecodeError
                  (lit "Expecting value: line 1 column 1 (char 0)"))
       end;
     py_str v :=
       match v with
       | JStr s => s
       | JNull => lit "None"
       | JBool true => lit "True"
       | JBool false => lit "False"
       | _ => type_name v
       end;
     decode_replace b :=
       (fun c => let n := Byte.to_N c in
                 if (n <? 128)%N then n else 65533%N) <$> b;
     encode_utf8 s :=
       if forallb (fun c => (c <? 128)%N) s then Ret (raw s)
       else Exc (Exn UnicodeEncodeError (lit "not ASCII"));
     struct_pack_HHHH rows cols x y :=
       match rows, cols with
       | JInt r, JInt c =>
           if (0 <=? r) && (r <=? 65535) && (0 <=? c) && (c <=? 65535)
           then Ret (raw ((fun z => Z.to_N z) <$>
                            [r mod 256; r / 256; c mod 256; c / 256;
                             x mod 256; x / 256; y mod 256; y / 256]))
           else Exc (Exn StructError (lit "argument out of range"))
       | _, _ =>
           Exc (Exn StructError (lit "required argument is not an integer"))
       end |}.

(** What the system answers during one round of the loop. *)
Record turn := {
  t_select : answer (list Z);
  t_stdin : answer bytes;
  t_master : answer bytes;
  t_fork : answer (Z * Z);
  t_exec : option exn;
  t_kill : answer unit;
  t_write : answer Z;
  t_ioctl : answer unit;
  t_waitpid : answer (Z * Z)
}.

(** A quiet round: nothing is readable. *)
Definition quiet : turn :=
  {| t_select := Ret [];
     t_stdin := Exc (Exn BlockingIOError (lit "[Errno 11] Resource temporarily unavailable"));
     t_master := Exc (Exn BlockingIOError (lit "[Errno 11] Resource temporarily unavailable"));
     t_fork := Exc (Exn OSError (lit "[Errno 12] Cannot allocate memory"));
     t_exec := None;
     t_kill := Exc (Exn ProcessLookupError (lit "[Errno 3] No such process"));
     t_write := Exc (Exn OSError (lit "[Errno 9] Bad file descriptor"));
     t_ioctl := Exc (Exn OSError (lit "[Errno 9] Bad file descriptor"));
     t_waitpid := Exc (Exn ChildProcessError (lit "[Errno 10] No child processes")) |}.

(** The state of the scripted world is the number of [select] calls made;
    the calls of round [k] are answered by the [k]-th turn. *)
Definition now (script : list turn) (k : nat) : turn :=
  match script !! pred k with
  | Some t => t
  | None => quiet
  end.

Definition scripted (script : list turn) : OS nat :=
  {| environ := ∅;
     O_NONBLOCK := 2048;
     os_getcwd k := (Ret (lit "/"), k);
     pty_fork k := (t_fork (now script k), k);
     os_chdir _ k := (Ret tt, k);
     os_execvpe _ _ _ k := (t_exec (now script k), k);
     fcntl_GETFL _ k := (Ret 2, k);
     fcntl_SETFL _ _ k := (Ret tt, k);
     ioctl_TIOCSWINSZ _ _ k := (t_ioctl (now script k), k);
     os_write _ _ k := (t_write (now script k), k);
     os_kill _ _ k := (t_kill (now script k), k);
     os_waitpid _ k := (t_waitpid (now script k), k);
     select_select _ k := (t_select (now script (S k)), S k);
     os_read fd _ k :=
       (if fd =? stdin_fd then t_stdin (now script k)
        else t_master (now script k), k);
     stdout_write _ k := (true, k);
     flush_std_files _ := true |}.

(** The plugin sends [s]. *)
Definition plugin_sends (s : string) (t : turn) : turn :=
  {| t_select := match t_select t with
                 | Ret fds => Ret (stdin_fd :: fds)
                 | a => a
                 end;
     t_stdin := Ret (raw (text s));
     t_master := t_master t; t_fork := t_fork t; t_exec := t_exec t;
     t_kill := t_kill t;
     t_write := t_write t; t_ioctl := t_ioctl t; t_waitpid := t_waitpid t |}.

(** The PTY master [fd] is readable and the read answers [a]. *)
Definition master_reads (fd : Z) (a : answer bytes) (t : turn) : turn :=
  {| t_select := match t_select t with
                 | Ret fds => Ret (fds ++ [fd])
                 | r => r
                 end;
     t_stdin := t_stdin t;
     t_master := a; t_fork := t_fork t; t_exec := t_exec t;
     t_kill := t_kill t;
     t_write := t_write t; t_ioctl := t_ioctl t; t_waitpid := t_waitpid t |}.

(** The read of the plugin's channel answers [a]. *)
Definition stdin_answers (a : answer bytes) (t : turn) : turn :=
  {| t_select := match t_select t with
                 | Ret fds => Ret (stdin_fd :: fds)
                 | r => r
                 end;
     t_stdin := a;
     t_master := t_master t; t_fork := t_fork t; t_exec := t_exec t;
     t_kill := t_kill t;
     t_write := t_write t; t_ioctl := t_ioctl t; t_waitpid := t_waitpid t |}.

Definition fork_answers (a : answer (Z * Z)) (t : turn) : turn :=
  {| t_select := t_select t; t_stdin := t_stdin t; t_master := t_master t;
     t_fork := a; t_exec := t_exec t; t_kill := t_kill t; t_write := t_write t;
     t_ioctl := t_ioctl t; t_waitpid := t_waitpid t |}.


Definition kill_answers (a : answer unit) (t : turn) : turn :=
  {| t_select := t_select t; t_stdin := t_stdin t; t_master := t_master t;
     t_fork := t_fork t; t_exec := t_exec t; t_kill := a; t_write := t_write t;
     t_ioctl := t_ioctl t; t_waitpid := t_waitpid t |}.

Definition write_answers (a : answer Z) (t : turn) : turn :=
  {| t_select := t_select t; t_stdin := t_stdin t; t_master := t_master t;
     t_fork := t_fork t; t_exec := t_exec t; t_kill := t_kill t; t_write := a;
     t_ioctl := t_ioctl t; t_waitpid := t_waitpid t |}.

Definition waitpid_answers (a : answer (Z * Z)) (t : turn) : turn :=
  {| t_select := t_select t; t_stdin := t_stdin t; t_master := t_master t;
     t_fork := t_fork t; t_exec := t_exec t; t_kill := t_kill t;
     t_write := t_write t; t_ioctl := t_ioctl t; t_waitpid := a |}.

(** The lines of the protocol that the examples send, with what
    [json.loads] makes of them. *)
Definition obj (kvs : list (str * json)) : json := JObj (list_to_map kvs).

Definition spawn_echo_line : string :=
  "{'type':'spawn','cmd':'/bin/echo','args':['hi']}".
Definition spawn_echo : json :=
  obj [(lit "type", JStr (lit "spawn")); (lit "cmd", JStr (lit "/bin/echo"));
       (lit "args", JArr [JStr (lit "hi")])].

Definition protocol : list (str * json) :=
  [(text spawn_echo_line, spawn_echo);
   (text "{'type':'write','data':'x'}",
    obj [(lit "type", JStr (lit "write")); (lit "data", JStr (lit "x"))]);
   (text "{'type':'resize','cols':100,'rows':30}",
    obj [(lit "type", JStr (lit "resize")); (lit "cols", JInt 100); (lit "rows", JInt 30)]);
   (text "{'type':'kill'}", obj [(lit "type", JStr (lit "kill"))]);
   (text "{'type':'bogus'}", obj [(lit "type", JStr (lit "bogus"))]);
   (text "42", JInt 42);
   (text "'x'", JStr (lit "x"))].

Definition lib : Lib := ascii_lib protocol.

(** A line followed by its newline, as the plugin writes it. *)
Definition ln (s : string) : string := String.append s (String "010"%char EmptyString).

(** Two worlds for the examples: no Session yet, and a Session whose
    child 100 runs on PTY master 5. *)
Definition idle (k : nat) : world nat := start k.

Definition active (k : nat) : world nat :=
  {| self := {| master_fd := Some 5; pid := Some 100; running := true |};
     sent := [Spawned 100]; stderr := []; outside := k |}.

Definition EPERM : exn :=
  Exn PermissionError (lit "[Errno 1] Operation not permitted").
Definition EIO : exn := Exn OSError (lit "[Errno 5] Input/output error").
Definition ENOENT : exn :=
  Exn FileNotFoundError (lit "[Errno 2] No such file or directory").

(** The Session of child 100 after its exit has been reported: the process
    id is cleared, the PTY master 5 is still recorded. *)
Definition exited (k : nat) : world nat :=
  {| self := {| master_fd := Some 5; pid := None; running := false |};
     sent := [Spawned 100; Exit 0]; stderr := []; outside := k |}.

(** A child is spawned and exits; later the PTY master yields data once
    more (another process has opened the terminal and writes to it). *)
Definition late_output : list turn :=
  [plugin_sends (ln spawn_echo_line) (fork_answers (Ret (100, 5)) quiet);
   master_reads 5 (Ret []) (waitpid_answers (Ret (100, 0)) quiet);
   master_reads 5 (Ret (raw (lit "late"))) quiet].

(** The scenario of the specification: [/bin/echo hi]. *)
Definition echo_hi : list turn :=
  [plugin_sends (ln spawn_echo_line) (fork_answers (Ret (100, 5)) quiet);
   master_reads 5 (Ret (raw (lit "hi") ++ [Byte.x0a])) quiet;
   master_reads 5 (Exc EIO) (waitpid_answers (Ret (100, 0)) quiet)].

(** The running child writes, then exits; the plugin sends nothing. *)
Definition child_exits : list turn :=
  [master_reads 5 (Ret (raw (lit "hi"))) quiet;
   master_reads 5 (Exc EIO) (waitpid_answers (Ret (100, 0)) quiet)].

End Script.

(** ** Vocabulary of the statements *)

(** The child has terminated, as [_check_exit] sees it: [waitpid] returned
    a process id other than 0, or raised [ChildProcessError]. *)
Definition terminated (a : answer (Z * Z)) : Prop :=
  match a with
  | Ret (p', _) => p' <> 0
  | Exc e => exn_cls e = ChildProcessError
  end.

(** The signal was delivered, or there was no process to deliver it to. *)
Definition delivered_or_gone (a : answer unit) : Prop :=
  match a with
  | Ret _ => True
  | Exc e => exn_cls e = ProcessLookupError
  end.

(** No kill is waiting to end the loop at l.131: no process id is recorded,
    or the Session is marked as running. *)
Definition no_kill_pending {W} (w : world W) : Prop :=
  pid (self w) = None \/ running (self w) = true.

(** [select] reports nothing from the plugin: it returns, and the plugin's
    channel is not among the readable descriptors. *)
Definition plugin_silent {W} (r : answer (list Z) * W) : Prop :=
  match r.1 with
  | Ret readable => stdin_fd ∉ readable
  | Exc _ => False
  end.

(** The call raised an [OSError]. *)
Definition fails {A} (a : answer A) : Prop :=
  match a with
  | Ret _ => False
  | Exc e => is_OSError (exn_cls e) = true
  end.


(** The discriminator of a decoded object is none of the four commands. *)
Definition unknown_type (cmd : gmap (list N) json) : Prop :=
  forall name, name ∈ [lit "spawn"; lit "write"; lit "resize"; lit "kill"] ->
               cmd !! lit "type" <> Some (JStr name).

(** The exit code that [_check_exit] reports for an answer of [waitpid]. *)
Definition reported_code (a : answer (Z * Z)) : Z :=
  match a with
  | Ret (_, status) => exit_code status
  | Exc _ => -1
  end.

(** *** Sessions in the events sent

    A Session begins with its spawned event.  Reading the events in the
    order they were sent, a Session is [Open] until its exit event and
    [Closed] after it. *)
Inductive phase :=
| Open
| Closed.

(** One event more, for "the exit event is sent at most once in a Session":
    [None] once a second exit has been seen. *)
Definition exits_step (st : option phase) (ev : event) : option phase :=
  match st, ev with
  | None, _ => None
  | Some _, Spawned _ => Some Open
  | Some Open, Exit _ => Some Closed
  | Some Closed, Exit _ => None
  | Some s, _ => Some s
  end.

(** The same, for "and no output event follows the exit of its Session". *)
Definition strict_step (st : option phase) (ev : event) : option phase :=
  match st, ev with
  | Some Closed, Output _ => None
  | _, _ => exits_step st ev
  end.

Definition track (l : list event) : option phase :=
  fold_left exits_step l (Some Open).

(** In every Session the exit event is sent at most once. *)
Definition exit_at_most_once (l : list event) : Prop := track l <> None.

(** In every Session the exit event is sent at most once and no output
    event follows it. *)
Definition exit_once_and_last (l : list event) : Prop :=
  fold_left strict_step l (Some Open) <> None.

(** What the helper's fields have to do with the events sent: once a
    Session is closed, no process id is recorded. *)
Definition closed_means_no_pid {W} (w : world W) : Prop :=
  match track (sent w) with
  | None => False
  | Some Open => True
  | Some Closed => pid (self w) = None
  end.

(** What holds after a piece of the program that started with the
    invariant: the invariant again when it returned, and in any case at most
    one exit per Session. *)
Definition after {W A} (r : outcome A * world W) : Prop :=
  match r.1 with
  | Done _ => closed_means_no_pid r.2
  | _ => exit_at_most_once (sent r.2)
  end.

(** *** Properties of the helper's fields and of the events sent *)

(** A property of the fields and the events, read in a world. *)
Definition holds {W} (P : PtyHelper -> list event -> Prop) (w : world W) : Prop :=
  P (self w) (sent w).

Definition stop_running (h : PtyHelper) : PtyHelper :=
  {| master_fd := master_fd h; pid := pid h; running := false |}.

Definition reaped (h : PtyHelper) : PtyHelper :=
  {| master_fd := master_fd h; pid := None; running := false |}.

(** What a property has to survive to hold all along a run: each way in
    which the program changes its fields or sends an event.  [Inv] is the
    property while the loop goes on, [Ok] what is left of it once the loop
    has been left, where a spawn may have recorded its child without
    announcing it. *)
Record preserved (Inv Ok : PtyHelper -> list event -> Prop) : Prop := {
  pres_weaken : forall h l, Inv h l -> Ok h l;
  pres_error : forall h l m, Inv h l -> Inv h (l ++ [Error m]);
  pres_output : forall h l d,
    Inv h l -> master_fd h <> None -> Inv h (l ++ [Output d]);
  pres_killed : forall h l, Inv h l -> Inv (stop_running h) (l ++ [Killed]);
  pres_exit : forall h l c,
    Inv h l -> pid h <> None -> Inv (reaped h) (l ++ [Exit c]);
  pres_spawned : forall h l p fd,
    Inv h l ->
    Inv {| master_fd := Some fd; pid := Some p; running := true |}
        (l ++ [Spawned p]);
  pres_forked : forall h l p fd r,
    Inv h l -> r = running h \/ r = true ->
    Ok {| master_fd := Some fd; pid := Some p; running := r |} l;
  pres_last_kill : forall h l, Ok h l -> Ok (stop_running h) (l ++ [Killed])
}.

(** After a piece of the program: [Inv] if it returned, [Ok] otherwise. *)
Definition ended_with {W A} (Inv Ok : PtyHelper -> list event -> Prop)
    (r : outcome A * world W) : Prop :=
  match r.1 with
  | Done _ => holds Inv r.2
  | _ => holds Ok r.2
  end.

(** The fields agree with each other: a running Session has a process id,
    and a process id comes with a PTY master descriptor. *)
Definition coherent (h : PtyHelper) : Prop :=
  (running h = true -> pid h <> None) /\ (pid h <> None -> master_fd h <> None).

(** Reading the events in the order they were sent: has a spawned event
    been seen, and did every output and exit event come after one. *)
Definition announce_step (st : option bool) (ev : event) : option bool :=
  match st, ev with
  | None, _ => None
  | Some _, Spawned _ => Some true
  | Some false, (Output _ | Exit _) => None
  | Some b, _ => Some b
  end.

Definition announced (l : list event) : option bool :=
  fold_left announce_step l (Some false).

(** Every output and every exit event comes after a spawned event. *)
Definition spawned_first (l : list event) : Prop := announced l <> None.

(** The same, and a Session on record has been announced. *)
Definition session_announced (h : PtyHelper) (l : list event) : Prop :=
  match announced l with
  | None => False
  | Some true => True
  | Some false => master_fd h = None /\ pid h = None
  end.

(** ** More lines and answers for the examples *)

Module Cases.

Import Script.

(** Commands with fields left out or of the wrong type. *)
Definition sparse : list (str * json) :=
  [(text "{'type':'resize'}", obj [(lit "type", JStr (lit "resize"))]);
   (text "{'type':'write'}", obj [(lit "type", JStr (lit "write"))]);
   (text "{'type':'write','data':5}",
    obj [(lit "type", JStr (lit "write")); (lit "data", JInt 5)]);
   (text "{'type':'spawn','env':null}",
    obj [(lit "type", JStr (lit "spawn")); (lit "env", JNull)])].

Definition lib : Lib := ascii_lib (protocol ++ sparse).

(** A round in which [select] raises. *)
Definition select_raises (e : exn) : turn :=
  {| t_select := Exc e; t_stdin := t_stdin quiet; t_master := t_master quiet;
     t_fork := t_fork quiet; t_exec := t_exec quiet; t_kill := t_kill quiet;
     t_write := t_write quiet; t_ioctl := t_ioctl quiet;
     t_waitpid := t_waitpid quiet |}.

Definition EBADF : exn := Exn OSError (lit "[Errno 9] Bad file descriptor").
Definition EINTR : exn := Exn KeyboardInterrupt [].

(** The scripted system, except that [fcntl] refuses every descriptor. *)
Definition without_fcntl (script : list turn) : OS nat :=
  let os := scripted script in
  {| environ := environ os;
     O_NONBLOCK := O_NONBLOCK os;
     os_getcwd := os_getcwd os;
     pty_fork := pty_fork os;
     os_chdir := os_chdir os;
     os_execvpe := os_execvpe os;
     fcntl_GETFL _ k := (Exc EBADF, k);
     fcntl_SETFL := fcntl_SETFL os;
     ioctl_TIOCSWINSZ := ioctl_TIOCSWINSZ os;
     os_write := os_write os;
     os_kill := os_kill os;
     os_waitpid := os_waitpid os;
     select_select := select_select os;
     os_read := os_read os;
     stdout_write := stdout_write os;
     flush_std_files := flush_std_files os |}.

(** The scripted system, except that the working directory of a child
    cannot be entered and the environment has one variable. *)
Definition without_cwd (script : list turn) : OS nat :=
  let os := scripted script in
  {| environ := {[ lit "TERM" := lit "dumb" ]};
     O_NONBLOCK := O_NONBLOCK os;
     os_getcwd := os_getcwd os;
     pty_fork := pty_fork os;
     os_chdir _ k := (Exc ENOENT, k);
     os_execvpe := os_execvpe os;
     fcntl_GETFL := fcntl_GETFL os;
     fcntl_SETFL := fcntl_SETFL os;
     ioctl_TIOCSWINSZ := ioctl_TIOCSWINSZ os;
     os_write := os_write os;
     os_kill := os_kill os;
     os_waitpid := os_waitpid os;
     select_select := select_select os;
     os_read := os_read os;
     stdout_write := stdout_write os;
     flush_std_files := flush_std_files os |}.

(** The scripted system, except that the plugin has closed the pipe the
    events are written to: every write fails, and so does the flush at the
    end. *)
Definition stdout_closed (script : list turn) : OS nat :=
  let os := scripted script in
  {| environ := environ os;
     O_NONBLOCK := O_NONBLOCK os;
     os_getcwd := os_getcwd os;
     pty_fork := pty_fork os;
     os_chdir := os_chdir os;
     os_execvpe := os_execvpe os;
     fcntl_GETFL := fcntl_GETFL os;
     fcntl_SETFL := fcntl_SETFL os;
     ioctl_TIOCSWINSZ := ioctl_TIOCSWINSZ os;
     os_write := os_write os;
     os_kill := os_kill os;
     os_waitpid := os_waitpid os;
     select_select := select_select os;
     os_read := os_read os;
     stdout_write _ k := (false, k);
     flush_std_files _ := false |}.

(** A kill command arrives in the round in which the PTY reaches its end:
    the child has already exited and waits to be reaped. *)
Definition kill_meets_exit : list turn :=
  [plugin_sends (ln "{'type':'kill'}")
     (master_reads 5 (Exc EIO)
        (kill_answers (Ret tt) (waitpid_answers (Ret (100, 0)) quiet)))].

(** A line of 100000 opening brackets, on which [json.loads] does not fail
    with [JSONDecodeError] but runs out of stack, and the same line but for
    its last bracket. *)
Definition deep : str := replicate (Z.to_nat 100000) 91%N.
Definition almost_deep : str := replicate (Z.to_nat 99999) 91%N.

Definition stack_exhausted : exn :=
  Exn RecursionError
    (lit "maximum recursion depth exceeded while decoding a JSON array from a unicode string").

Definition deep_lib : Lib :=
  {| json_loads line :=
       if bool_decide (line = deep) then Exc stack_exhausted
       else json_loads Script.lib line;
     py_str := py_str Script.lib;
     decode_replace := decode_replace Script.lib;
     encode_utf8 := encode_utf8 Script.lib;
     struct_pack_HHHH := struct_pack_HHHH Script.lib |}.

(** A resize to more columns than 16 bits hold, and a kill command followed
    by a spawn command in one chunk. *)
Definition wide_lib : Lib :=
  ascii_lib
    (protocol
     ++ [(text "{'type':'resize','cols':70000}",
          obj [(lit "type", JStr (lit "resize")); (lit "cols", JInt 70000)])]).

Definition kill_then_spawn : list turn :=
  [plugin_sends (String.append (ln "{'type':'kill'}") (ln spawn_echo_line))
     (kill_answers (Ret tt) (fork_answers (Ret (200, 6)) quiet))].

End Cases.

(** * Theorems *)

Import Script.

Ltac unfold_M :=
  unfold pass, mbind, M_bind, mret, M_ret, call, pure_call, raise,
    try_except, get_self, set_pid, set_running, set_master_fd, set_self,
    isinstance, with_outside in *.

Section Lemmas.

Context (lib : Lib) {W : Type} (os : OS W).

Lemma _send_eq (msg : event) (w : world W) :
  _send os msg w =
  (Done tt, {| self := self w; sent := sent w ++ [msg]; stderr := stderr w;
               outside := (stdout_write os msg (outside w)).2 |}).
Proof. unfold _send. destruct (stdout_write os msg (outside w)); reflexivity. Qed.

Lemma _check_exit_no_pid (w : world W) :
  pid (self w) = None -> _check_exit os w = (Done tt, w).
Proof. intros H. unfold _check_exit. unfold_M. rewrite H. reflexivity. Qed.

(** [spawn] in the parent: the fork succeeded and the descriptor could be
    made non-blocking. *)
Lemma spawn_parent (cmd args cwd : json) (d : gmap (list N) json)
    (w : world W) (p fd flags : Z) (o1 o2 o3 : W) :
  pty_fork os (outside w) = (Ret (p, fd), o1) ->
  p <> 0 ->
  fcntl_GETFL os fd o1 = (Ret flags, o2) ->
  fcntl_SETFL os fd (Z.lor flags (O_NONBLOCK os)) o2 = (Ret tt, o3) ->
  spawn os cmd args cwd (JObj d) w =
  (Done tt,
   {| self := {| master_fd := Some fd; pid := Some p; running := true |};
      sent := sent w ++ [Spawned p]; stderr := stderr w;
      outside := (stdout_write os (Spawned p) o3).2 |}).
Proof.
  intros Hfork Hp Hget Hset. unfold spawn, merged_env, _set_nonblocking.
  unfold_M. rewrite Hfork. simpl.
  apply Z.eqb_neq in Hp. rewrite Hp. simpl. rewrite Hget. simpl. rewrite Hset.
  rewrite _send_eq. reflexivity.
Qed.


(** [kill] when there is no child, the signal is delivered, or the child
    is gone. *)
Lemma kill_done (w : world W) :
  (forall p, pid (self w) = Some p ->
             delivered_or_gone (os_kill os p SIGTERM (outside w)).1) ->
  exists o,
    kill os w =
    (Done tt,
     {| self := {| master_fd := master_fd (self w); pid := pid (self w);
                   running := false |};
        sent := sent w ++ [Killed]; stderr := stderr w; outside := o |}).
Proof.
  intros Hkill. unfold kill. unfold_M.
  destruct (pid (self w)) as [p|] eqn:Hpid.
  - specialize (Hkill p eq_refl).
    destruct (os_kill os p SIGTERM (outside w)) as [[[]|e] o]; simpl in Hkill.
    + rewrite _send_eq. simpl. rewrite Hpid. eexists. reflexivity.
    + unfold is_class. rewrite Hkill, bool_decide_eq_true_2 by reflexivity.
      rewrite _send_eq. simpl. rewrite Hpid. eexists. reflexivity.
  - rewrite _send_eq. simpl. rewrite Hpid. eexists. reflexivity.
Qed.

(** [_check_exit] when it finds the child terminated. *)
Lemma _check_exit_done (w : world W) (p : Z) :
  pid (self w) = Some p ->
  terminated (os_waitpid os p (outside w)).1 ->
  exists o,
    _check_exit os w =
    (Done tt,
     {| self := {| master_fd := master_fd (self w); pid := None;
                   running := false |};
        sent := sent w ++ [Exit (reported_code (os_waitpid os p (outside w)).1)];
        stderr := stderr w; outside := o |}).
Proof.
  intros Hpid Hterm. unfold _check_exit. unfold_M. rewrite Hpid.
  destruct (os_waitpid os p (outside w)) as [[[p' status]|e] o] eqn:Hw;
    simpl in Hterm |- *.
  - apply Z.eqb_neq in Hterm. rewrite Hterm. simpl. rewrite _send_eq. simpl.
    eexists. reflexivity.
  - unfold is_class. rewrite Hterm. rewrite bool_decide_eq_true_2 by reflexivity.
    rewrite _send_eq. simpl. eexists. reflexivity.
Qed.

End Lemmas.

(** ** Exit check *)

(** C4. When the exit check observes a terminated child it sends exactly one
    exit event, whose code is the child's exit status if it exited normally,
    the negated signal number if a signal ended it, and -1 if the status says
    neither or there was no child to reap; it clears the process id, and
    every later exit check does nothing. *)
Theorem check_exit_reports_termination_once
    {W} (os : OS W) (w : world W) (p : Z) :
  pid (self w) = Some p ->
  terminated (os_waitpid os p (outside w)).1 ->
  exists code w',
    _check_exit os w = (Done tt, w')
    /\ sent w' = sent w ++ [Exit code]
    /\ match (os_waitpid os p (outside w)).1 with
       | Ret (_, status) =>
           (WIFEXITED status = true -> code = WEXITSTATUS status)
           /\ (WIFEXITED status = false -> WIFSIGNALED status = true ->
               code = - WTERMSIG status)
           /\ (WIFEXITED status = false -> WIFSIGNALED status = false ->
               code = -1)
       | Exc _ => code = -1
       end
    /\ pid (self w') = None
    /\ running (self w') = false
    /\ master_fd (self w') = master_fd (self w)
    /\ forall n, Nat.iter n (fun v => (_check_exit os v).2) w' = w'.
Proof.
  intros Hpid Hterm.
  destruct (_check_exit_done os w p Hpid Hterm) as [o Hrun].
  eexists _, _. split; [exact Hrun|]. simpl.
  split; [reflexivity|]. split.
  { destruct (os_waitpid os p (outside w)) as [[[p' status]|e] o']; simpl;
      [|reflexivity].
    unfold exit_code.
    repeat split; intros; repeat case_match; congruence. }
  repeat split.
  intros n. induction n as [|n IH]; simpl; [reflexivity|].
  rewrite IH, _check_exit_no_pid by reflexivity. reflexivity.
Qed.

(** The child of the active Session was ended by signal 9. *)
Lemma check_exit_reports_termination_once_witness :
  exists code w',
    _check_exit (scripted [waitpid_answers (Ret (100, 9)) quiet]) (active 1)
      = (Done tt, w')
    /\ sent w' = [Spawned 100; Exit code] /\ code = -9
    /\ pid (self w') = None.
Proof.
  destruct (check_exit_reports_termination_once
              (scripted [waitpid_answers (Ret (100, 9)) quiet]) (active 1) 100)
    as (code & w' & Hrun & Hsent & Hcode & Hpid & _).
  - reflexivity.
  - simpl. lia.
  - exists code, w'. simpl in Hcode. destruct Hcode as (_ & Hsig & _).
    split; [exact Hrun | split; [exact Hsent | split; [| exact Hpid]]].
    apply Hsig; reflexivity.
Defined.

(** ** Kill *)

(** C3, as the code has it.  A kill command sends exactly one killed event
    and marks the Session as no longer running when there is no child, when
    the signal is delivered, and when the child is gone
    ([ProcessLookupError]).  The process id and the PTY descriptor stay. *)
Theorem kill_sends_killed {W} (os : OS W) (w : world W) :
  (forall p, pid (self w) = Some p ->
             delivered_or_gone (os_kill os p SIGTERM (outside w)).1) ->
  exists w',
    kill os w = (Done tt, w')
    /\ sent w' = sent w ++ [Killed]
    /\ running (self w') = false
    /\ pid (self w') = pid (self w)
    /\ master_fd (self w') = master_fd (self w).
Proof.
  intros Hkill. destruct (kill_done os w Hkill) as [o Hrun].
  eexists. split; [exact Hrun|]. repeat split.
Qed.

(** A kill of a child that is already gone. *)
Lemma kill_sends_killed_witness :
  exists w',
    kill (scripted [quiet]) (active 1) = (Done tt, w')
    /\ sent w' = [Spawned 100; Killed]
    /\ running (self w') = false.
Proof.
  destruct (kill_sends_killed (scripted [quiet]) (active 1))
    as (w' & Hrun & Hsent & Hrunning & _).
  - intros p Hp. reflexivity.
  - exists w'. split; [exact Hrun | split; [exact Hsent | exact Hrunning]].
Defined.

(** C3, as stated, fails when the signal cannot be delivered for another
    reason: the child runs under another user id, [os.kill] raises
    [PermissionError], [kill] catches [ProcessLookupError] only, and the
    exception leaves [kill] before the flag is cleared and before anything
    is sent. *)
Lemma kill_not_permitted :
  let r := kill (scripted [kill_answers (Exc EPERM) quiet]) (active 1) in
  r.1 = Raised EPERM
  /\ sent r.2 = sent (active 1)
  /\ running (self r.2) = true.
Proof. vm_compute. repeat split. Qed.

(** ** Spawn *)

(** C6, as the code has it.  A spawn command is never rejected: whatever
    Session the helper holds, when the fork succeeds the new child's process
    id and PTY descriptor replace the recorded ones, the Session is marked
    running, and a spawned event is sent. *)
Theorem spawn_command_replaces_session
    (lib : Lib) {W} (os : OS W) (line : str) (cmd d : gmap (list N) json)
    (w : world W) (cwd : str) (p fd flags : Z) (o0 o1 o2 o3 : W) :
  json_loads lib line = Ret (JObj cmd) ->
  cmd !! lit "type" = Some (JStr (lit "spawn")) ->
  dict_get cmd (lit "env") (JObj ∅) = JObj d ->
  os_getcwd os (outside w) = (Ret cwd, o0) ->
  pty_fork os o0 = (Ret (p, fd), o1) ->
  p <> 0 ->
  fcntl_GETFL os fd o1 = (Ret flags, o2) ->
  fcntl_SETFL os fd (Z.lor flags (O_NONBLOCK os)) o2 = (Ret tt, o3) ->
  exists w',
    _handle_command lib os line w = (Done tt, w')
    /\ self w' = {| master_fd := Some fd; pid := Some p; running := true |}
    /\ sent w' = sent w ++ [Spawned p].
Proof.
  intros Hloads Htype Henv Hcwd Hfork Hp Hget Hset.
  unfold _handle_command. unfold_M. rewrite Hloads. simpl.
  unfold dict_get at 1. rewrite Htype. simpl.
  rewrite Hcwd. simpl. rewrite Henv.
  erewrite spawn_parent by eassumption.
  eexists. split; [reflexivity|]. split; reflexivity.
Qed.

(** A second spawn while child 100 runs on descriptor 5. *)
Lemma spawn_command_replaces_session_witness :
  exists w',
    _handle_command Script.lib
      (scripted [fork_answers (Ret (200, 6)) quiet])
      (text spawn_echo_line) (active 1) = (Done tt, w')
    /\ self w' = {| master_fd := Some 6; pid := Some 200; running := true |}
    /\ sent w' = [Spawned 100; Spawned 200].
Proof.
  eapply (spawn_command_replaces_session Script.lib
            (scripted [fork_answers (Ret (200, 6)) quiet])
            (text spawn_echo_line) _ ∅ (active 1) (lit "/") 200 6 2);
    try reflexivity.
  lia.
Defined.

(** C6, as stated, fails: the second spawn is neither rejected nor ignored,
    and the process id 100 and descriptor 5 of the running Session are
    overwritten. *)
Lemma second_spawn_overwrites_session :
  let r := _handle_command Script.lib
             (scripted [fork_answers (Ret (200, 6)) quiet])
             (text spawn_echo_line) (active 1) in
  pid (self (active 1)) = Some 100
  /\ master_fd (self (active 1)) = Some 5
  /\ running (self (active 1)) = true
  /\ r.1 = Done tt
  /\ pid (self r.2) = Some 200
  /\ master_fd (self r.2) = Some 6
  /\ sent r.2 = [Spawned 100; Spawned 200].
Proof. vm_compute. repeat split. Qed.

(** ** Write *)

(** C7. Without a PTY master descriptor a write does nothing and sends
    nothing.  When the write to the descriptor fails, one error event with
    the text of the failure is sent and the Session is as it was. *)
Theorem write_absent_or_failing (lib : Lib) {W} (os : OS W) (w : world W) :
  (forall data, master_fd (self w) = None ->
     write lib os data w = (Done tt, w))
  /\ (forall fd s b e o,
        master_fd (self w) = Some fd ->
        encode_utf8 lib s = Ret b ->
        os_write os fd b (outside w) = (Exc e, o) ->
        is_OSError (exn_cls e) = true ->
        exists w',
          write lib os (JStr s) w = (Done tt, w')
          /\ sent w' = sent w ++ [Error (lit "Write failed: " ++ exn_text e)]
          /\ self w' = self w).
Proof.
  split.
  - intros data Hfd. unfold write. unfold_M. rewrite Hfd. reflexivity.
  - intros fd s b e o Hfd Henc Hwrite Hos. unfold write, encode. unfold_M.
    rewrite Hfd, Henc. simpl. rewrite Hwrite, Hos. rewrite _send_eq. simpl.
    eexists. split; [reflexivity|]. split; reflexivity.
Qed.

(** A write before any spawn, and a write that the PTY refuses. *)
Lemma write_absent_or_failing_witness :
  write Script.lib (scripted [quiet]) (JStr (lit "x")) (idle 1)
    = (Done tt, idle 1)
  /\ exists w',
       write Script.lib (scripted [write_answers (Exc EIO) quiet])
         (JStr (lit "x")) (active 1) = (Done tt, w')
       /\ sent w' = [Spawned 100;
                     Error (lit "Write failed: [Errno 5] Input/output error")]
       /\ self w' = self (active 1).
Proof.
  split.
  - apply (write_absent_or_failing Script.lib (scripted [quiet]) (idle 1)).
    reflexivity.
  - apply (proj2 (write_absent_or_failing Script.lib
                    (scripted [write_answers (Exc EIO) quiet]) (active 1))
             5 (lit "x") (raw (lit "x")) EIO 1%nat); reflexivity.
Defined.

(** ** Resize *)

(** C8, as the code has it.  A resize sends nothing at all, so no error
    event, and leaves the Session as it was; when applying the window size
    fails with an [OSError] the failure is swallowed and [resize] returns
    normally.  Dimensions that [struct.pack] refuses are another matter: its
    exception is no [OSError], and it leaves [resize] uncaught. *)
Theorem resize_is_silent (lib : Lib) {W} (os : OS W) (cols rows : json)
    (w : world W) :
  sent (resize lib os cols rows w).2 = sent w
  /\ self (resize lib os cols rows w).2 = self w
  /\ (forall fd winsize,
        master_fd (self w) = Some fd ->
        struct_pack_HHHH lib rows cols 0 0 = Ret winsize ->
        fails (ioctl_TIOCSWINSZ os fd winsize (outside w)).1 ->
        (resize lib os cols rows w).1 = Done tt)
  /\ (forall fd e,
        master_fd (self w) = Some fd ->
        struct_pack_HHHH lib rows cols 0 0 = Exc e ->
        is_OSError (exn_cls e) = false ->
        resize lib os cols rows w = (Raised e, w)).
Proof.
  unfold resize. unfold_M.
  destruct (master_fd (self w)) as [fd|] eqn:Hfd; [|repeat split; discriminate].
  destruct (struct_pack_HHHH lib rows cols 0 0) as [ws|e] eqn:Hpack; simpl.
  - destruct (ioctl_TIOCSWINSZ os fd ws (outside w)) as [[[]|e] o] eqn:Hio;
      simpl.
    + repeat split; discriminate.
    + destruct (is_OSError (exn_cls e)) eqn:Hos; simpl; repeat split;
        try discriminate.
      intros fd' ws' Hfd' Hws' Hfails. simplify_eq. rewrite Hio in Hfails.
      simpl in Hfails. congruence.
  - destruct (is_OSError (exn_cls e)) eqn:Hos; simpl; repeat split;
      try discriminate.
    all: intros fd' e' _ He' Hos'; simplify_eq; congruence || reflexivity.
Qed.

(** A resize whose [ioctl] fails on a bad descriptor, and a resize to
    70000 columns. *)
Lemma resize_is_silent_witness :
  let r := resize Script.lib (scripted [quiet]) (JInt 100) (JInt 30)
             (active 1) in
  (sent r.2 = [Spawned 100] /\ self r.2 = self (active 1) /\ r.1 = Done tt)
  /\ resize Script.lib (scripted [quiet]) (JInt 70000) (JInt 24) (active 1)
     = (Raised (Exn StructError (lit "argument out of range")), active 1).
Proof.
  destruct (resize_is_silent Script.lib (scripted [quiet]) (JInt 100)
              (JInt 30) (active 1)) as (Hsent & Hself & Hfail & _).
  intros r. split.
  - split; [exact Hsent | split; [exact Hself |]].
    apply (Hfail 5 (raw (Z.to_N <$> [30; 0; 100; 0; 0; 0; 0; 0])));
      reflexivity.
  - apply (proj2 (proj2 (proj2 (resize_is_silent Script.lib (scripted [quiet])
                                  (JInt 70000) (JInt 24) (active 1)))) 5);
      reflexivity.
Defined.

(** C8, as stated, fails when the dimensions cannot be applied because they
    do not fit the window-size structure: the plugin asks a running session
    for 70000 columns, [struct.pack] raises, nothing absorbs the exception,
    no event follows the spawned one, and the helper exits with status 1. *)
Lemma resize_out_of_range_ends_helper :
  let os := scripted
              [plugin_sends (ln spawn_echo_line)
                 (fork_answers (Ret (100, 5)) quiet);
               plugin_sends (ln "{'type':'resize','cols':70000}") quiet] in
  let r := main Cases.wide_lib os 3 0%nat in
  r.1 = Exited 1
  /\ sent r.2 = [Spawned 100]
  /\ stderr r.2 = [lit "PTY helper error: argument out of range" ++ [NL]].
Proof. vm_compute. repeat split. Qed.

(** ** The loop *)

Section Loop.

Context (lib : Lib) {W : Type} (os : OS W).

Lemma split_newline_length (buffer line rest : str) :
  split_newline buffer = Some (line, rest) ->
  length buffer = S (length line + length rest).
Proof.
  revert line rest. induction buffer as [|c b IH]; intros line rest; simpl.
  - discriminate.
  - destruct (c =? NL)%N.
    + intros [= <- <-]. reflexivity.
    + destruct (split_newline b) as [[l r]|]; [|discriminate].
      intros [= <- <-]. simpl. rewrite (IH l r eq_refl). reflexivity.
Qed.

(** One turn of the inner loop. *)
Lemma dispatch_lines_step (n : nat) (buffer line rest : str) (w : world W) :
  split_newline buffer = Some (line, rest) ->
  strip_nonempty line = true ->
  dispatch_lines lib os (S n) buffer w =
  match _handle_command lib os line w with
  | (Done _, w') => dispatch_lines lib os n rest w'
  | (Raised e, w') => (Raised e, w')
  | (Execed, w') => (Execed, w')
  end.
Proof.
  intros Hsplit Hline. simpl. rewrite Hsplit, Hline. unfold_M.
  destruct (_handle_command lib os line w) as [[[]|e|] w']; reflexivity.
Qed.

Lemma dispatch_lines_no_newline (n : nat) (buffer : str) (w : world W) :
  split_newline buffer = None ->
  dispatch_lines lib os n buffer w = (Done buffer, w).
Proof. intros H. destruct n; simpl; [|rewrite H]; reflexivity. Qed.

(** The rounds given to the inner loop are enough: it stops only when no
    newline is left in the buffer. *)
Lemma dispatch_lines_complete (n : nat) (buffer rest : str) (w w' : world W) :
  (length buffer <= n)%nat ->
  dispatch_lines lib os n buffer w = (Done rest, w') ->
  split_newline rest = None.
Proof.
  revert buffer w. induction n as [|n IH]; intros buffer w Hlen; simpl.
  - destruct buffer; [|simpl in Hlen; lia]. intros [= <- <-]. reflexivity.
  - destruct (split_newline buffer) as [[line r]|] eqn:Hsplit.
    + apply split_newline_length in Hsplit. unfold_M.
      destruct (if strip_nonempty line then _ else _) as [[[]|e|] w1];
        try discriminate.
      apply IH. lia.
    + intros [= <- <-]. exact Hsplit.
Qed.

(** The commands read in a round when the first complete line raises. *)
Lemma read_commands_first_line_raises
    (readable : list Z) (buffer line rest : str) (chunk : bytes)
    (w w' : world W) (o : W) (e : exn) :
  stdin_fd ∈ readable ->
  os_read os stdin_fd 4096 (outside w) = (Ret chunk, o) ->
  chunk <> [] ->
  split_newline (buffer ++ decode_replace lib chunk) = Some (line, rest) ->
  strip_nonempty line = true ->
  _handle_command lib os line (with_outside w o) = (Raised e, w') ->
  read_commands lib os readable buffer w =
  if is_OSError (exn_cls e) then (Done Break, w') else (Raised e, w').
Proof.
  intros Hin Hread Hchunk Hsplit Hline Hcmd. unfold read_commands.
  rewrite bool_decide_eq_true_2 by exact Hin.
  unfold try_except, mbind, M_bind at 1, call. rewrite Hread.
  destruct chunk as [|c chunk]; [congruence|].
  unfold mbind, M_bind.
  rewrite (split_newline_length _ _ _ Hsplit).
  rewrite (dispatch_lines_step _ _ _ _ _ Hsplit Hline), Hcmd.
  unfold isinstance. destruct (is_OSError (exn_cls e)); reflexivity.
Qed.

(** A round in which the first complete line raises. *)
Lemma round_first_line_raises
    (readable : list Z) (buffer line rest : str) (chunk : bytes)
    (w w' : world W) (o1 o2 : W) (e : exn) :
  select_select os (watched (self w)) (outside w) = (Ret readable, o1) ->
  stdin_fd ∈ readable ->
  os_read os stdin_fd 4096 o1 = (Ret chunk, o2) ->
  chunk <> [] ->
  split_newline (buffer ++ decode_replace lib chunk) = Some (line, rest) ->
  strip_nonempty line = true ->
  _handle_command lib os line (with_outside w o2) = (Raised e, w') ->
  round lib os buffer w =
  if is_OSError (exn_cls e) then (Done Break, w') else (Raised e, w').
Proof.
  intros Hsel Hin Hread Hchunk Hsplit Hline Hcmd. unfold round.
  unfold try_except, mbind, M_bind, call, get_self. rewrite Hsel. simpl.
  erewrite (read_commands_first_line_raises readable buffer line rest chunk
              (with_outside w o1) w' o2 e); try eassumption.
  destruct (is_OSError (exn_cls e)); reflexivity.
Qed.

Lemma loop_first_line_raises
    (n : nat) (readable : list Z) (buffer line rest : str) (chunk : bytes)
    (w w' : world W) (o1 o2 : W) (e : exn) :
  select_select os (watched (self w)) (outside w) = (Ret readable, o1) ->
  stdin_fd ∈ readable ->
  os_read os stdin_fd 4096 o1 = (Ret chunk, o2) ->
  chunk <> [] ->
  split_newline (buffer ++ decode_replace lib chunk) = Some (line, rest) ->
  strip_nonempty line = true ->
  _handle_command lib os line (with_outside w o2) = (Raised e, w') ->
  loop lib os (S n) buffer w =
  if is_OSError (exn_cls e) then (Done Returned, w') else (Raised e, w').
Proof.
  intros. simpl. unfold mbind, M_bind.
  erewrite round_first_line_raises by eassumption.
  destruct (is_OSError (exn_cls e)); reflexivity.
Qed.

End Loop.

(** ** Decoding *)

Lemma py_eq_str_false (v : json) (s : str) :
  v <> JStr s -> py_eq_str v s = false.
Proof.
  intros H. destruct v; simpl; try reflexivity.
  apply bool_decide_eq_false_2. congruence.
Qed.

Lemma unknown_type_get (cmd : gmap (list N) json) (name : str) :
  unknown_type cmd ->
  name ∈ [lit "spawn"; lit "write"; lit "resize"; lit "kill"] ->
  py_eq_str (dict_get cmd (lit "type") JNull) name = false.
Proof.
  intros Hunk Hin. apply py_eq_str_false. unfold dict_get.
  specialize (Hunk name Hin).
  destruct (cmd !! lit "type"); congruence.
Qed.

(** C5, as the code has it.  A line on which [json.loads] raises
    [JSONDecodeError] gets exactly one error event that begins with
    [Invalid JSON:], changes nothing else, and the inner loop goes on with
    the lines after it.  A decoded object whose discriminator is none of the
    four commands gets an error event that begins with [Unknown command:].
    Any other exception of [json.loads] is not caught: it leaves
    [_handle_command] with nothing sent. *)
Theorem malformed_and_unknown_lines (lib : Lib) {W} (os : OS W) (line : str)
    (w : world W) :
  (forall e,
     json_loads lib line = Exc e ->
     exn_cls e = JSONDecodeError ->
     exists msg w',
       _handle_command lib os line w = (Done tt, w')
       /\ sent w' = sent w ++ [Error msg]
       /\ lit "Invalid JSON:" `prefix_of` msg
       /\ self w' = self w
       /\ forall n buffer rest,
            split_newline buffer = Some (line, rest) ->
            strip_nonempty line = true ->
            dispatch_lines lib os (S n) buffer w
            = dispatch_lines lib os n rest w')
  /\ (forall cmd,
        json_loads lib line = Ret (JObj cmd) ->
        unknown_type cmd ->
        exists msg w',
          _handle_command lib os line w = (Done tt, w')
          /\ sent w' = sent w ++ [Error msg]
          /\ lit "Unknown command:" `prefix_of` msg
          /\ self w' = self w)
  /\ (forall e,
        json_loads lib line = Exc e ->
        exn_cls e <> JSONDecodeError ->
        _handle_command lib os line w = (Raised e, w)).
Proof.
  split; [|split].
  - intros e Hloads Hcls.
    assert (Hcmd : _handle_command lib os line w =
                   (Done tt,
                    {| self := self w;
                       sent := sent w
                               ++ [Error (lit "Invalid JSON: " ++ exn_text e)];
                       stderr := stderr w;
                       outside :=
                         (stdout_write os
                            (Error (lit "Invalid JSON: " ++ exn_text e))
                            (outside w)).2 |})).
    { unfold _handle_command. unfold_M. rewrite Hloads. simpl.
      unfold is_class. rewrite Hcls, bool_decide_eq_true_2 by reflexivity.
      rewrite _send_eq. reflexivity. }
    eexists _, _. split; [exact Hcmd|].
    split; [reflexivity|]. split.
    { exists (32%N :: exn_text e). reflexivity. }
    split; [reflexivity|].
    intros n buffer rest Hsplit Hline.
    rewrite (dispatch_lines_step _ _ _ _ _ _ _ Hsplit Hline), Hcmd.
    reflexivity.
  - intros cmd Hloads Hunk.
    unfold _handle_command. unfold_M. rewrite Hloads. simpl.
    rewrite !(unknown_type_get cmd) by (exact Hunk || set_solver).
    rewrite _send_eq. eexists _, _. split; [reflexivity|]. simpl.
    split; [reflexivity|]. split; [|reflexivity].
    exists (32%N :: py_str lib (dict_get cmd (lit "type") JNull)). reflexivity.
  - intros e Hloads Hcls. unfold _handle_command. unfold_M.
    rewrite Hloads. simpl. unfold is_class.
    rewrite bool_decide_eq_false_2 by exact Hcls. reflexivity.
Qed.

(** The line [not json], and the object [{"type":"bogus"}]. *)
Lemma malformed_and_unknown_lines_witness :
  (exists msg w',
     _handle_command Script.lib (scripted [quiet]) (text "not json") (idle 1)
       = (Done tt, w')
     /\ sent w' = [Error msg]
     /\ lit "Invalid JSON:" `prefix_of` msg)
  /\ (exists msg w',
        _handle_command Script.lib (scripted [quiet])
          (text "{'type':'bogus'}") (idle 1) = (Done tt, w')
        /\ sent w' = [Error msg]
        /\ lit "Unknown command:" `prefix_of` msg).
Proof.
  split.
  - destruct (proj1 (malformed_and_unknown_lines Script.lib (scripted [quiet])
                       (text "not json") (idle 1))
                (Exn JSONDecodeError
                   (lit "Expecting value: line 1 column 1 (char 0)")))
      as (msg & w' & Hrun & Hsent & Hmsg & _).
    + reflexivity.
    + reflexivity.
    + exists msg, w'. split; [exact Hrun | split; [exact Hsent | exact Hmsg]].
  - destruct (proj1 (proj2 (malformed_and_unknown_lines Script.lib
                              (scripted [quiet]) (text "{'type':'bogus'}")
                              (idle 1)))
                (list_to_map [(lit "type", JStr (lit "bogus"))]))
      as (msg & w' & Hrun & Hsent & Hmsg & _).
    + reflexivity.
    + intros name Hin Heq. vm_compute in Heq.
      injection Heq as <-.
      repeat (apply elem_of_cons in Hin as [Hin|Hin]; [discriminate|]).
      inversion Hin.
    + exists msg, w'. split; [exact Hrun | split; [exact Hsent | exact Hmsg]].
Defined.

(** C5, as stated, fails for a line that fails to decode in another way:
    on a line of 100000 opening brackets [json.loads] raises
    [RecursionError], which l.138 does not catch.  No error event is sent,
    the exception leaves the loop, and the helper exits with status 1.  The
    line has reached the buffer chunk by chunk; its last bracket and the
    newline arrive here. *)
Lemma deeply_nested_line_ends_helper :
  let os := scripted [plugin_sends (ln "[") quiet] in
  let r := main_handlers os (loop Cases.deep_lib os 2 Cases.almost_deep (idle 0)) in
  json_loads Cases.deep_lib Cases.deep = Exc Cases.stack_exhausted
  /\ _handle_command Cases.deep_lib os Cases.deep (idle 1)
     = (Raised Cases.stack_exhausted, idle 1)
  /\ r.1 = Exited 1
  /\ sent r.2 = [].
Proof. vm_compute. repeat split. Qed.

(** C10. A line that decodes to something other than an object makes
    [_handle_command] raise [AttributeError] with nothing sent; the exception
    passes through the loop, which catches [OSError] only, and [main] ends
    the helper with exit status 1. *)
Theorem non_object_line_ends_helper
    (lib : Lib) {W} (os : OS W) (n : nat) (readable : list Z)
    (buffer line rest : str) (chunk : bytes) (v : json) (w : world W)
    (o1 o2 : W) :
  select_select os (watched (self w)) (outside w) = (Ret readable, o1) ->
  stdin_fd ∈ readable ->
  os_read os stdin_fd 4096 o1 = (Ret chunk, o2) ->
  chunk <> [] ->
  split_newline (buffer ++ decode_replace lib chunk) = Some (line, rest) ->
  strip_nonempty line = true ->
  json_loads lib line = Ret v ->
  (forall d, v <> JObj d) ->
  exists e,
    exn_cls e = AttributeError
    /\ (forall w0 : world W, _handle_command lib os line w0 = (Raised e, w0))
    /\ loop lib os (S n) buffer w = (Raised e, with_outside w o2)
    /\ (main_handlers os (loop lib os (S n) buffer w)).1 = Exited 1
    /\ sent (main_handlers os (loop lib os (S n) buffer w)).2 = sent w.
Proof.
  intros Hsel Hin Hread Hchunk Hsplit Hline Hloads Hobj.
  set (e := Exn AttributeError
              (lit "'" ++ type_name v ++ lit "' object has no attribute 'get'")).
  assert (Hcmd : forall w0 : world W,
            _handle_command lib os line w0 = (Raised e, w0)).
  { intros w0. unfold _handle_command. unfold_M. rewrite Hloads. simpl.
    destruct v; try reflexivity. exfalso. eapply Hobj. reflexivity. }
  assert (Hloop : loop lib os (S n) buffer w = (Raised e, with_outside w o2)).
  { erewrite loop_first_line_raises by (try eassumption; apply Hcmd).
    reflexivity. }
  exists e. split; [reflexivity|]. split; [exact Hcmd|].
  split; [exact Hloop|]. rewrite Hloop. split; reflexivity.
Qed.

(** The plugin sends the line [42]. *)
Lemma non_object_line_ends_helper_witness :
  exists e,
    exn_cls e = AttributeError
    /\ loop Script.lib (scripted [plugin_sends (ln "42") quiet]) 3 []
         (idle 0) = (Raised e, idle 1)
    /\ (main_handlers (scripted [plugin_sends (ln "42") quiet])
          (loop Script.lib (scripted [plugin_sends (ln "42") quiet]) 3 []
             (idle 0))).1 = Exited 1.
Proof.
  destruct (non_object_line_ends_helper Script.lib
              (scripted [plugin_sends (ln "42") quiet]) 2 [stdin_fd]
              [] (text "42") [] (raw (text (ln "42"))) (JInt 42) (idle 0)
              1%nat 1%nat)
    as (e & Hcls & _ & Hloop & Hmain & _); try reflexivity.
  - constructor.
  - discriminate.
  - discriminate.
  - exists e. split; [exact Hcls | split; [exact Hloop | exact Hmain]].
Defined.

(** ** Failing spawns *)




(** ** How the loop ends *)

Section Silence.

Context (lib : Lib) {W : Type} (os : OS W).

Implicit Types w : world W.

Lemma check_exit_no_kill_pending w :
  no_kill_pending w -> no_kill_pending (_check_exit os w).2.
Proof.
  intros Hw. unfold _check_exit. unfold_M.
  destruct (pid (self w)) as [p|] eqn:Hpid; [|exact Hw].
  destruct (os_waitpid os p (outside w)) as [[[p' status]|e] o]; simpl.
  - destruct (p' =? 0); simpl.
    + exact Hw.
    + rewrite _send_eq. left. reflexivity.
  - destruct (is_class ChildProcessError (exn_cls e)); simpl.
    + rewrite _send_eq. left. reflexivity.
    + exact Hw.
Qed.

Lemma read_output_no_kill_pending (readable : list Z) w :
  no_kill_pending w -> no_kill_pending (read_output lib os readable w).2.
Proof.
  intros Hw. unfold read_output.
  unfold mbind, M_bind, get_self, try_except, call, isinstance.
  destruct (master_fd (self w)) as [fd|]; [|exact Hw].
  destruct (bool_decide (fd ∈ readable)); [|exact Hw].
  assert (Ho : forall o : W, no_kill_pending (with_outside w o)) by (intros; exact Hw).
  destruct (os_read os fd 16384 (outside w)) as [[data|e] o]; simpl.
  - destruct data as [|c data].
    + pose proof (check_exit_no_kill_pending _ (Ho o)) as Hc.
      destruct (_check_exit os (with_outside w o)) as [[[]|e|] w1];
        simpl in Hc |- *; try exact Hc.
      destruct (is_OSError (exn_cls e)); [|exact Hc].
      apply check_exit_no_kill_pending, Hc.
    + rewrite _send_eq. exact Hw.
  - destruct (is_OSError (exn_cls e)); [|apply Ho].
    apply check_exit_no_kill_pending, Ho.
Qed.

(** A round without a command does not break the loop, whatever the PTY and
    the child do. *)
Lemma round_silent (buffer : str) w :
  plugin_silent (select_select os (watched (self w)) (outside w)) ->
  no_kill_pending w ->
  match round lib os buffer w with
  | (Done Break, _) => False
  | (Done (Continue _), w') => no_kill_pending w'
  | _ => True
  end.
Proof.
  intros Hsel Hw. unfold plugin_silent in Hsel. unfold round.
  unfold mbind, M_bind, get_self, try_except, call, isinstance, mret, M_ret.
  simpl.
  destruct (select_select os (watched (self w)) (outside w))
    as [[readable|e] o]; simpl in Hsel |- *; [|contradiction].
  unfold read_commands. rewrite bool_decide_eq_false_2 by exact Hsel.
  unfold mret, M_ret. simpl.
  pose proof (read_output_no_kill_pending readable (with_outside w o) Hw)
    as Ho.
  destruct (read_output lib os readable (with_outside w o))
    as [[[]|e|] w1]; simpl in Ho |- *; try exact I.
  destruct Ho as [Hp | Hr].
  - rewrite Hp. rewrite bool_decide_eq_false_2 by (intros H; apply H; reflexivity).
    simpl. left. exact Hp.
  - rewrite Hr. rewrite andb_false_r. right. exact Hr.
Qed.

Lemma loop_silent (n : nat) (buffer : str) w :
  (forall fds o, plugin_silent (select_select os fds o)) ->
  no_kill_pending w ->
  (loop lib os n buffer w).1 <> Done Returned.
Proof.
  intros Hsel. revert buffer w. induction n as [|n IH]; intros buffer w Hw.
  - simpl. discriminate.
  - simpl. unfold mbind, M_bind.
    pose proof (round_silent buffer w (Hsel _ _) Hw) as Hr.
    destruct (round lib os buffer w) as [[[|buffer']|e|] w1]; simpl.
    + contradiction.
    + apply IH, Hr.
    + discriminate.
    + discriminate.
Qed.

End Silence.

(** C9, as the code has it.  The loop ends when the read of the plugin's
    channel is empty and when that read raises an [OSError].  After a kill
    command that leaves the process id recorded it ends when the kill is the
    last command of its chunk and the PTY is not readable in that round.  In
    general a round whose reads complete ends the loop exactly when it
    leaves a process id recorded and the running flag cleared (l.131), and
    otherwise goes on to the next round.  The exit of the child alone does
    not end it: the round that reports the exit goes on to the next one, and
    as long as nothing arrives from the plugin and no kill is pending the
    loop does not return, whatever the PTY and the child do. *)
Theorem loop_ends_on_close_error_or_kill (lib : Lib) {W} (os : OS W) :
  (forall (n : nat) (readable : list Z) (buffer : str) (w : world W) (o1 : W),
  select_select os (watched (self w)) (outside w) = (Ret readable, o1) ->
  (forall o2,
     stdin_fd ∈ readable ->
     os_read os stdin_fd 4096 o1 = (Ret [], o2) ->
     loop lib os (S n) buffer w = (Done Returned, with_outside w o2))
  /\ (forall e o2,
        stdin_fd ∈ readable ->
        os_read os stdin_fd 4096 o1 = (Exc e, o2) ->
        is_OSError (exn_cls e) = true ->
        loop lib os (S n) buffer w = (Done Returned, with_outside w o2))
  /\ (forall chunk line rest cmd p o2,
        stdin_fd ∈ readable ->
        os_read os stdin_fd 4096 o1 = (Ret chunk, o2) ->
        chunk <> [] ->
        split_newline (buffer ++ decode_replace lib chunk)
          = Some (line, rest) ->
        split_newline rest = None ->
        strip_nonempty line = true ->
        json_loads lib line = Ret (JObj cmd) ->
        cmd !! lit "type" = Some (JStr (lit "kill")) ->
        pid (self w) = Some p ->
        delivered_or_gone (os_kill os p SIGTERM o2).1 ->
        (forall fd, master_fd (self w) = Some fd -> fd ∉ readable) ->
        exists w',
          loop lib os (S n) buffer w = (Done Returned, w')
          /\ sent w' = sent w ++ [Killed])
  /\ (forall buffer' w1 w2,
        read_commands lib os readable buffer (with_outside w o1)
          = (Done (Continue buffer'), w1) ->
        read_output lib os readable w1 = (Done tt, w2) ->
        (pid (self w2) <> None ->
         running (self w2) = false ->
         loop lib os (S n) buffer w = (Done Returned, w2))
        /\ (pid (self w2) = None \/ running (self w2) = true ->
            loop lib os (S n) buffer w = loop lib os n buffer' w2))
  /\ (forall fd a p o2,
        stdin_fd ∉ readable ->
        master_fd (self w) = Some fd ->
        fd ∈ readable ->
        os_read os fd 16384 o1 = (a, o2) ->
        a = Ret [] \/ fails a ->
        pid (self w) = Some p ->
        terminated (os_waitpid os p o2).1 ->
        exists code w',
          round lib os buffer w = (Done (Continue buffer), w')
          /\ sent w' = sent w ++ [Exit code]
          /\ pid (self w') = None
          /\ loop lib os (S n) buffer w = loop lib os n buffer w'))
  /\ ((forall fds o, plugin_silent (select_select os fds o)) ->
      forall (n : nat) (buffer : str) (w : world W),
        no_kill_pending w ->
        (loop lib os n buffer w).1 <> Done Returned).
Proof.
  split; [|intros Hsel n buffer w; apply loop_silent, Hsel].
  intros n readable buffer w o1 Hsel.
  split; [|split; [|split; [|split]]].
  - intros o2 Hin Hread. simpl. unfold round, read_commands. unfold_M.
    rewrite Hsel. simpl. rewrite bool_decide_eq_true_2 by exact Hin.
    simpl. rewrite Hread. reflexivity.
  - intros e o2 Hin Hread Hos. simpl. unfold round, read_commands. unfold_M.
    rewrite Hsel. simpl. rewrite bool_decide_eq_true_2 by exact Hin.
    simpl. rewrite Hread, Hos. reflexivity.
  - intros chunk line rest cmd p o2 Hin Hread Hchunk Hsplit Hrest Hline
      Hloads Htype Hpid Hkill Hmaster.
    destruct (kill_done os (with_outside w o2)) as [o3 Hrun].
    { intros p' Hp'. simpl in Hp'. rewrite Hpid in Hp'.
      injection Hp' as <-. exact Hkill. }
    assert (Hcmd : _handle_command lib os line (with_outside w o2) =
                   kill os (with_outside w o2)).
    { unfold _handle_command. unfold_M. rewrite Hloads. simpl.
      unfold dict_get. rewrite Htype. reflexivity. }
    assert (Hloop : loop lib os (S n) buffer w =
              (Done Returned,
               {| self := {| master_fd := master_fd (self w);
                             pid := pid (self w); running := false |};
                  sent := sent w ++ [Killed]; stderr := stderr w;
                  outside := o3 |})).
    { simpl. unfold round, read_commands, read_output.
      unfold mbind, M_bind, try_except, call, get_self. rewrite Hsel.
      unfold with_outside in Hcmd, Hrun |- *. simpl in Hcmd, Hrun |- *.
      rewrite bool_decide_eq_true_2 by exact Hin. simpl. rewrite Hread.
      destruct chunk as [|c chunk]; [congruence|].
      rewrite (split_newline_length _ _ _ Hsplit).
      rewrite (dispatch_lines_step _ _ _ _ _ _ _ Hsplit Hline).
      rewrite Hcmd, Hrun.
      rewrite dispatch_lines_no_newline by exact Hrest. simpl.
      destruct (master_fd (self w)) as [fd|] eqn:Hfd.
      + rewrite bool_decide_eq_false_2 by (apply Hmaster; reflexivity).
        simpl. rewrite Hpid. reflexivity.
      + simpl. rewrite Hpid. reflexivity. }
    eexists. split; [exact Hloop | reflexivity].
  - intros buffer' w1 w2 Hcommands Houtput.
    assert (Hround : round lib os buffer w =
              (Done (if bool_decide (pid (self w2) <> None)
                        && negb (running (self w2))
                     then Break else Continue buffer'), w2)).
    { unfold round. unfold mbind at 1 2, M_bind, get_self, try_except.
      unfold mbind at 1, M_bind, call. rewrite Hsel.
      unfold mret at 1, M_ret. cbv beta iota.
      unfold mbind at 1. rewrite Hcommands. cbv beta iota.
      unfold mbind at 1. rewrite Houtput. cbv beta iota.
      unfold mbind at 1. cbv beta iota.
      destruct (bool_decide (pid (self w2) <> None) && negb (running (self w2)));
        reflexivity. }
    split.
    + intros Hpid Hrun. simpl. unfold mbind, M_bind. rewrite Hround.
      rewrite bool_decide_eq_true_2 by exact Hpid. rewrite Hrun. reflexivity.
    + intros Hgo. simpl. unfold mbind, M_bind. rewrite Hround.
      destruct Hgo as [Hpid | Hrun].
      * rewrite bool_decide_eq_false_2 by (intros H; exact (H Hpid)).
        reflexivity.
      * rewrite Hrun, andb_false_r. reflexivity.
  - intros fd a p o2 Hnin Hfd Hin Hread Ha Hpid Hterm.
    destruct (_check_exit_done os (with_outside w o2) p Hpid Hterm)
      as [o3 Hrun].
    assert (Hround : round lib os buffer w =
              (Done (Continue buffer),
               {| self := {| master_fd := master_fd (self w); pid := None;
                             running := false |};
                  sent := sent w
                          ++ [Exit (reported_code (os_waitpid os p o2).1)];
                  stderr := stderr w; outside := o3 |})).
    { unfold round, read_commands, read_output.
      unfold mbind, M_bind, try_except, call, get_self, mret, M_ret.
      rewrite Hsel. unfold with_outside in Hrun |- *. simpl in Hrun |- *.
      rewrite bool_decide_eq_false_2 by exact Hnin.
      simpl. rewrite Hfd. rewrite bool_decide_eq_true_2 by exact Hin.
      simpl. rewrite Hread.
      destruct Ha as [-> | Ha].
      - rewrite Hrun. simpl. rewrite Hfd. reflexivity.
      - destruct a as [b|e]; simpl in Ha; [contradiction|].
        unfold isinstance. rewrite Ha. rewrite Hrun. simpl. rewrite Hfd.
        reflexivity. }
    eexists _, _. split; [exact Hround|]. split; [reflexivity|].
    split; [reflexivity|].
    simpl. unfold mbind, M_bind. rewrite Hround. reflexivity.
Qed.

(** The plugin closes its channel; the read of it fails; a kill arrives for
    the running child; the child exits and the PTY reaches its end. *)
Lemma loop_ends_on_close_error_or_kill_witness :
  loop Script.lib (scripted [stdin_answers (Ret []) quiet]) 3 [] (active 0)
    = (Done Returned, active 1)
  /\ loop Script.lib (scripted [stdin_answers (Exc EIO) quiet]) 3 []
       (active 0) = (Done Returned, active 1)
  /\ (exists w',
        loop Script.lib (scripted [plugin_sends (ln "{'type':'kill'}") quiet])
          3 [] (active 0) = (Done Returned, w')
        /\ sent w' = [Spawned 100; Killed])
  /\ (exists code w',
        round Script.lib
          (scripted [master_reads 5 (Ret [])
                       (waitpid_answers (Ret (100, 0)) quiet)])
          [] (active 0) = (Done (Continue []), w')
        /\ sent w' = [Spawned 100; Exit code]
        /\ pid (self w') = None)
  /\ (loop Script.lib (scripted child_exits) 9 [] (active 0)).1
     <> Done Returned
  /\ (exists w',
        loop Script.lib (scripted Cases.kill_then_spawn) 1 [] (active 0)
          = (Done (StillLooping []), w')
        /\ sent w' = [Spawned 100; Killed; Spawned 200]).
Proof.
  split; [|split; [|split; [|split; [|split]]]].
  - apply (proj1 (proj1 (loop_ends_on_close_error_or_kill Script.lib
                    (scripted [stdin_answers (Ret []) quiet])) 2%nat [stdin_fd]
                    [] (active 0) 1%nat eq_refl)).
    + constructor.
    + reflexivity.
  - apply (proj1 (proj2 (proj1 (loop_ends_on_close_error_or_kill Script.lib
                           (scripted [stdin_answers (Exc EIO) quiet])) 2%nat
                           [stdin_fd] [] (active 0) 1%nat eq_refl)) EIO).
    + constructor.
    + reflexivity.
    + reflexivity.
  - apply (proj1 (proj2 (proj2 (proj1 (loop_ends_on_close_error_or_kill Script.lib
             (scripted [plugin_sends (ln "{'type':'kill'}") quiet])) 2%nat
             [stdin_fd] [] (active 0) 1%nat eq_refl)))
             (raw (text (ln "{'type':'kill'}"))) (text "{'type':'kill'}") []
             (list_to_map [(lit "type", JStr (lit "kill"))]) 100 1%nat);
      try reflexivity.
    + constructor.
    + discriminate.
    + intros fd [= <-]. vm_compute. intros H.
      apply list_elem_of_singleton in H. discriminate.
  - destruct (proj2 (proj2 (proj2 (proj2 (proj1 (loop_ends_on_close_error_or_kill Script.lib
                (scripted [master_reads 5 (Ret [])
                             (waitpid_answers (Ret (100, 0)) quiet)]))
                0%nat [5] [] (active 0) 1%nat eq_refl))))
                5 (Ret []) 100 1%nat)
      as (code & w' & Hround & Hsent & Hpid & _); try reflexivity.
    + intros H. apply list_elem_of_singleton in H. discriminate.
    + constructor.
    + left. reflexivity.
    + simpl. lia.
    + exists code, w'. split; [exact Hround | split; [exact Hsent | exact Hpid]].
  - apply (proj2 (loop_ends_on_close_error_or_kill Script.lib
                    (scripted child_exits))).
    + intros fds [|[|[|[|k]]]]; unfold plugin_silent; simpl;
        intros H; repeat (apply elem_of_cons in H as [H|H]; [discriminate|]);
        inversion H.
    + right. reflexivity.
  - pose (w2 := {| self := {| master_fd := Some 6; pid := Some 200;
                              running := true |};
                   sent := [Spawned 100; Killed; Spawned 200];
                   stderr := []; outside := 1%nat |}).
    exists w2. split; [|reflexivity].
    apply (proj2 (proj1 (proj2 (proj2 (proj2 (proj1
             (loop_ends_on_close_error_or_kill Script.lib
                (scripted Cases.kill_then_spawn)) 0%nat [stdin_fd] []
             (active 0) 1%nat eq_refl)))) [] w2 w2 eq_refl eq_refl)).
    right. reflexivity.
Defined.

(** C9, as stated, fails after a kill that leaves the process id recorded
    when a spawn command follows it in the same chunk: the spawn sets the
    running flag again before the loop looks at it, so the round sends the
    killed and the spawned event and goes on, and the loop keeps running
    with child 200. *)
Lemma kill_then_spawn_keeps_looping :
  let os := scripted Cases.kill_then_spawn in
  let r := round Script.lib os [] (active 0) in
  pid (self (active 0)) = Some 100
  /\ r.1 = Done (Continue [])
  /\ sent r.2 = [Spawned 100; Killed; Spawned 200]
  /\ pid (self r.2) = Some 200
  /\ running (self r.2) = true
  /\ (loop Script.lib os 5 [] (active 0)).1 = Done (StillLooping []).
Proof. vm_compute. repeat split. Qed.

(** ** Sessions in the events sent *)

Section Sessions.

Context (lib : Lib) {W : Type} (os : OS W).

Implicit Types w : world W.

Lemma track_snoc (l : list event) (ev : event) :
  track (l ++ [ev]) = exits_step (track l) ev.
Proof. unfold track. rewrite fold_left_app. reflexivity. Qed.

Lemma closed_means_no_pid_ok w :
  closed_means_no_pid w -> exit_at_most_once (sent w).
Proof.
  unfold closed_means_no_pid, exit_at_most_once.
  destruct (track (sent w)); [discriminate | contradiction].
Qed.

(** Changing neither the process id nor the events keeps the invariant. *)
Lemma closed_means_no_pid_same w w' :
  sent w' = sent w -> pid (self w') = pid (self w) ->
  closed_means_no_pid w -> closed_means_no_pid w'.
Proof. unfold closed_means_no_pid. intros -> ->. auto. Qed.

(** An event that is neither an exit nor a spawned one. *)
Lemma closed_means_no_pid_plain w w' (ev : event) :
  sent w' = sent w ++ [ev] -> pid (self w') = pid (self w) ->
  (forall s, exits_step (Some s) ev = Some s) ->
  closed_means_no_pid w -> closed_means_no_pid w'.
Proof.
  unfold closed_means_no_pid. intros -> -> Hev. rewrite track_snoc.
  destruct (track (sent w)) as [s|]; [|contradiction]. rewrite Hev. auto.
Qed.

Lemma closed_means_no_pid_spawned w w' (p : Z) :
  sent w' = sent w ++ [Spawned p] ->
  exit_at_most_once (sent w) -> closed_means_no_pid w'.
Proof.
  unfold closed_means_no_pid, exit_at_most_once. intros ->.
  rewrite track_snoc. destruct (track (sent w)) as [[]|]; simpl; auto.
Qed.

Lemma closed_means_no_pid_exit w w' (code p : Z) :
  sent w' = sent w ++ [Exit code] -> pid (self w) = Some p ->
  pid (self w') = None ->
  closed_means_no_pid w -> closed_means_no_pid w'.
Proof.
  unfold closed_means_no_pid. intros -> Hp Hp'. rewrite track_snoc.
  destruct (track (sent w)) as [[]|]; simpl; auto. congruence.
Qed.

Lemma check_exit_keeps w :
  closed_means_no_pid w -> closed_means_no_pid (_check_exit os w).2.
Proof.
  intros Hinv. unfold _check_exit. unfold_M.
  destruct (pid (self w)) as [p|] eqn:Hpid; [|exact Hinv].
  destruct (os_waitpid os p (outside w)) as [[[p' status]|e] o]; simpl.
  - destruct (p' =? 0); simpl.
    + revert Hinv. apply closed_means_no_pid_same; reflexivity.
    + rewrite _send_eq. simpl. revert Hinv.
      eapply closed_means_no_pid_exit; [reflexivity | exact Hpid | reflexivity].
  - destruct (is_class ChildProcessError (exn_cls e)); simpl.
    + rewrite _send_eq. simpl. revert Hinv.
      eapply closed_means_no_pid_exit; [reflexivity | exact Hpid | reflexivity].
    + revert Hinv. apply closed_means_no_pid_same; reflexivity.
Qed.

Lemma check_exit_keeps_master w :
  master_fd (self (_check_exit os w).2) = master_fd (self w).
Proof.
  unfold _check_exit. unfold_M.
  destruct (pid (self w)) as [p|]; [|reflexivity].
  destruct (os_waitpid os p (outside w)) as [[[p' status]|e] o]; simpl.
  - destruct (p' =? 0); simpl; [reflexivity|]. rewrite _send_eq. reflexivity.
  - destruct (is_class ChildProcessError (exn_cls e)); simpl; [|reflexivity].
    rewrite _send_eq. reflexivity.
Qed.

Lemma kill_keeps w :
  closed_means_no_pid w -> closed_means_no_pid (kill os w).2.
Proof.
  intros Hinv. unfold kill. unfold_M.
  destruct (pid (self w)) as [p|] eqn:Hpid.
  - destruct (os_kill os p SIGTERM (outside w)) as [[[]|e] o]; simpl.
    + rewrite _send_eq. simpl. revert Hinv.
      eapply closed_means_no_pid_plain; [reflexivity | simpl; auto | ].
      intros []; reflexivity.
    + destruct (is_class ProcessLookupError (exn_cls e)); simpl.
      * rewrite _send_eq. simpl. revert Hinv.
        eapply closed_means_no_pid_plain; [reflexivity | simpl; auto | ].
        intros []; reflexivity.
      * revert Hinv. apply closed_means_no_pid_same; reflexivity.
  - rewrite _send_eq. simpl. revert Hinv.
    eapply closed_means_no_pid_plain; [reflexivity | simpl; auto | ].
    intros []; reflexivity.
Qed.

Lemma write_keeps (data : json) w :
  closed_means_no_pid w -> closed_means_no_pid (write lib os data w).2.
Proof.
  intros Hinv. unfold write, encode. unfold_M.
  destruct (master_fd (self w)) as [fd|]; [|exact Hinv].
  assert (Hsame : forall o : W, closed_means_no_pid
            {| self := self w; sent := sent w; stderr := stderr w;
               outside := o |}).
  { intros o. revert Hinv. apply closed_means_no_pid_same; reflexivity. }
  assert (Herr : forall e (o : W), closed_means_no_pid
            (_send os (Error (lit "Write failed: " ++ exn_text e))
               {| self := self w; sent := sent w; stderr := stderr w;
                  outside := o |}).2).
  { intros e o. rewrite _send_eq. simpl. revert Hinv.
    eapply closed_means_no_pid_plain; [reflexivity | reflexivity |].
    intros []; reflexivity. }
  destruct data; simpl; try apply Hinv.
  destruct (encode_utf8 lib s) as [b|e]; simpl.
  - destruct (os_write os fd b (outside w)) as [[z|e] o]; simpl.
    + apply Hsame.
    + destruct (is_OSError (exn_cls e)); [apply Herr | apply Hsame].
  - destruct (is_OSError (exn_cls e)); [|exact Hinv].
    destruct w; apply Herr.
Qed.

Lemma resize_keeps (cols rows : json) w :
  closed_means_no_pid w -> closed_means_no_pid (resize lib os cols rows w).2.
Proof.
  intros Hinv. unfold resize. unfold_M.
  destruct (master_fd (self w)) as [fd|]; [|exact Hinv].
  destruct (struct_pack_HHHH lib rows cols 0 0) as [ws|e]; simpl.
  - destruct (ioctl_TIOCSWINSZ os fd ws (outside w)) as [[[]|e] o]; simpl.
    + revert Hinv. apply closed_means_no_pid_same; reflexivity.
    + destruct (is_OSError (exn_cls e)); simpl;
        revert Hinv; apply closed_means_no_pid_same; reflexivity.
  - destruct (is_OSError (exn_cls e)); exact Hinv.
Qed.

Lemma keeps_after {A} (r : outcome A * world W) :
  closed_means_no_pid r.2 -> after r.
Proof.
  intros H. unfold after. destruct r.1; [exact H | |];
    apply closed_means_no_pid_ok, H.
Qed.

Lemma spawn_after (cmd args cwd env : json) w :
  closed_means_no_pid w -> after (spawn os cmd args cwd env w).
Proof.
  intros Hinv. pose proof (closed_means_no_pid_ok w Hinv) as Hok.
  unfold spawn, merged_env, argv_of, execvpe, _set_nonblocking, after.
  unfold_M.
  destruct env; simpl; try exact Hok.
  destruct (pty_fork os (outside w)) as [[[p fd]|e] o]; simpl; [|exact Hok].
  destruct (p =? 0); simpl.
  - destruct (os_chdir os cwd o) as [[[]|e] o1]; simpl.
    + destruct args; simpl; try exact Hok.
      destruct (os_execvpe _ _ _ _ _) as [[e|] o2]; exact Hok.
    + destruct (is_OSError (exn_cls e)); simpl; [|exact Hok].
      destruct args; simpl; try exact Hok.
      destruct (os_execvpe _ _ _ _ _) as [[e'|] o2]; exact Hok.
  - destruct (fcntl_GETFL os fd o) as [[flags|e] o1]; simpl; [|exact Hok].
    destruct (fcntl_SETFL os fd _ o1) as [[[]|e] o2]; simpl; [|exact Hok].
    rewrite _send_eq. simpl.
    eapply closed_means_no_pid_spawned; [reflexivity | exact Hok].
Qed.

Lemma handle_command_after (line : str) w :
  closed_means_no_pid w -> after (_handle_command lib os line w).
Proof.
  intros Hinv. pose proof (closed_means_no_pid_ok w Hinv) as Hok.
  unfold _handle_command.
  unfold mbind, M_bind, try_except, pure_call, raise, mret, M_ret, isinstance.
  destruct (json_loads lib line) as [v|e]; simpl.
  - destruct v; try exact Hok.
    destruct (py_eq_str _ (lit "spawn"));
      [|destruct (py_eq_str _ (lit "write"));
        [|destruct (py_eq_str _ (lit "resize"));
          [|destruct (py_eq_str _ (lit "kill"))]]].
    + unfold call. destruct (os_getcwd os (outside w)) as [[cwd|e] o]; simpl.
      * apply spawn_after. revert Hinv.
        apply closed_means_no_pid_same; reflexivity.
      * exact Hok.
    + apply keeps_after, write_keeps, Hinv.
    + apply keeps_after, resize_keeps, Hinv.
    + apply keeps_after, kill_keeps, Hinv.
    + apply keeps_after. rewrite _send_eq. simpl. revert Hinv.
      eapply closed_means_no_pid_plain; [reflexivity | reflexivity |].
      intros []; reflexivity.
  - destruct (is_class JSONDecodeError (exn_cls e)); [|exact Hok].
    rewrite _send_eq. unfold after, pass, mret, M_ret. simpl. revert Hinv.
    eapply closed_means_no_pid_plain; [reflexivity | reflexivity |].
    intros []; reflexivity.
Qed.

Lemma dispatch_lines_after (n : nat) (buffer : str) w :
  closed_means_no_pid w -> after (dispatch_lines lib os n buffer w).
Proof.
  revert buffer w. induction n as [|n IH]; intros buffer w Hinv; simpl.
  - exact Hinv.
  - destruct (split_newline buffer) as [[line rest]|]; [|exact Hinv].
    unfold mbind, M_bind.
    destruct (strip_nonempty line).
    + pose proof (handle_command_after line w Hinv) as Hcmd.
      unfold after in Hcmd.
      destruct (_handle_command lib os line w) as [[[]|e|] w1]; simpl in Hcmd.
      * apply IH, Hcmd.
      * exact Hcmd.
      * exact Hcmd.
    + apply IH, Hinv.
Qed.

(** After the commands of a round: the invariant if the loop goes on. *)
Lemma read_commands_after (readable : list Z) (buffer : str) w :
  closed_means_no_pid w ->
  match read_commands lib os readable buffer w with
  | (Done (Continue _), w') => closed_means_no_pid w'
  | (_, w') => exit_at_most_once (sent w')
  end.
Proof.
  intros Hinv. pose proof (closed_means_no_pid_ok w Hinv) as Hok.
  unfold read_commands. destruct (bool_decide (stdin_fd ∈ readable)).
  - unfold try_except, mbind, M_bind, call, isinstance.
    destruct (os_read os stdin_fd 4096 (outside w)) as [[chunk|e] o]; simpl.
    + destruct chunk as [|c chunk]; [exact Hok|].
      pose proof (dispatch_lines_after
                    (length (buffer ++ decode_replace lib (c :: chunk)))
                    (buffer ++ decode_replace lib (c :: chunk))
                    (with_outside w o)) as Hd.
      unfold after in Hd.
      destruct (dispatch_lines _ _ _ _ _) as [[rest|e|] w1]; simpl in Hd |- *.
      * apply Hd. revert Hinv. apply closed_means_no_pid_same; reflexivity.
      * assert (exit_at_most_once (sent w1)) as Hw1.
        { apply Hd. revert Hinv. apply closed_means_no_pid_same; reflexivity. }
        destruct (is_OSError (exn_cls e)); exact Hw1.
      * apply Hd. revert Hinv. apply closed_means_no_pid_same; reflexivity.
    + destruct (is_OSError (exn_cls e)); exact Hok.
  - exact Hinv.
Qed.

Lemma read_output_keeps (readable : list Z) w :
  closed_means_no_pid w -> closed_means_no_pid (read_output lib os readable w).2.
Proof.
  intros Hinv. unfold read_output.
  unfold mbind, M_bind, get_self, try_except, call, isinstance.
  destruct (master_fd (self w)) as [fd|]; [|exact Hinv].
  destruct (bool_decide (fd ∈ readable)); [|exact Hinv].
  assert (Hw : forall o : W, closed_means_no_pid (with_outside w o)).
  { intros o. revert Hinv. apply closed_means_no_pid_same; reflexivity. }
  destruct (os_read os fd 16384 (outside w)) as [[data|e] o]; simpl.
  - destruct data as [|c data].
    + pose proof (check_exit_keeps _ (Hw o)) as Hc.
      destruct (_check_exit os (with_outside w o)) as [[[]|e|] w1];
        simpl in Hc |- *; try exact Hc.
      destruct (is_OSError (exn_cls e)); [|exact Hc].
      apply check_exit_keeps, Hc.
    + rewrite _send_eq. simpl. revert Hinv.
      eapply closed_means_no_pid_plain; [reflexivity | reflexivity |].
      intros []; reflexivity.
  - destruct (is_OSError (exn_cls e)); [|apply Hw].
    apply check_exit_keeps, Hw.
Qed.

Lemma round_after (buffer : str) w :
  closed_means_no_pid w ->
  match round lib os buffer w with
  | (Done (Continue _), w') => closed_means_no_pid w'
  | (_, w') => exit_at_most_once (sent w')
  end.
Proof.
  intros Hinv. pose proof (closed_means_no_pid_ok w Hinv) as Hok.
  unfold round.
  unfold mbind, M_bind, get_self, try_except, call, isinstance, mret, M_ret.
  simpl.
  assert (Hw : forall o : W, closed_means_no_pid (with_outside w o)).
  { intros o. revert Hinv. apply closed_means_no_pid_same; reflexivity. }
  destruct (select_select os (watched (self w)) (outside w))
    as [[readable|e] o]; simpl.
  - pose proof (read_commands_after readable buffer _ (Hw o)) as Hc.
    destruct (read_commands lib os readable buffer (with_outside w o))
      as [[[|buffer']|e|] w1]; simpl in Hc |- *; try exact Hc.
    pose proof (read_output_keeps readable w1 Hc) as Ho.
    destruct (read_output lib os readable w1) as [[[]|e|] w2]; simpl in Ho |- *.
    + destruct (bool_decide (pid (self w2) ≠ None) && negb (running (self w2)));
        simpl; [apply closed_means_no_pid_ok|]; exact Ho.
    + apply closed_means_no_pid_ok, Ho.
    + apply closed_means_no_pid_ok, Ho.
  - destruct (is_OSError (exn_cls e) || is_ValueError (exn_cls e));
      exact Hok.
Qed.

Lemma loop_after (n : nat) (buffer : str) w :
  closed_means_no_pid w -> exit_at_most_once (sent (loop lib os n buffer w).2).
Proof.
  revert buffer w. induction n as [|n IH]; intros buffer w Hinv; simpl.
  - apply closed_means_no_pid_ok, Hinv.
  - pose proof (round_after buffer w Hinv) as Hr.
    unfold mbind, M_bind.
    destruct (round lib os buffer w) as [[[|buffer']|e|] w1]; simpl;
      try exact Hr.
    apply IH, Hr.
Qed.

Lemma run_after (n : nat) w :
  closed_means_no_pid w -> exit_at_most_once (sent (run lib os n w).2).
Proof.
  intros Hinv. pose proof (closed_means_no_pid_ok w Hinv) as Hok.
  unfold run, _set_nonblocking. unfold mbind, M_bind, call.
  destruct (fcntl_GETFL os stdin_fd (outside w)) as [[flags|e] o]; simpl;
    [|exact Hok].
  destruct (fcntl_SETFL os stdin_fd _ o) as [[[]|e] o1]; simpl; [|exact Hok].
  apply loop_after. revert Hinv. apply closed_means_no_pid_same; reflexivity.
Qed.

(** [main] adds at most a killed event. *)
Lemma main_handlers_after (r : outcome run_end * world W) :
  exit_at_most_once (sent r.2) ->
  exit_at_most_once (sent (main_handlers os r).2).
Proof.
  destruct r as [[[|buffer]|e|] w]; simpl; try (intros H; exact H).
  intros Hok. unfold isinstance.
  destruct (is_class KeyboardInterrupt (exn_cls e)).
  - assert (Hk : exit_at_most_once (sent (kill os w).2)).
    { unfold kill. unfold_M.
      assert (Hsend : forall v : world W, sent v = sent w ->
                exit_at_most_once (sent (_send os Killed v).2)).
      { intros v Hv. rewrite _send_eq. simpl. rewrite Hv.
        unfold exit_at_most_once in *. rewrite track_snoc.
        destruct (track (sent w)) as [[]|]; simpl; congruence. }
      destruct (pid (self w)) as [p|].
      - destruct (os_kill os p SIGTERM (outside w)) as [[[]|e'] o]; simpl.
        + apply Hsend. reflexivity.
        + destruct (is_class ProcessLookupError (exn_cls e')); simpl;
            [apply Hsend; reflexivity | exact Hok].
      - apply Hsend. reflexivity. }
    destruct (kill os w) as [[[]|e'|] w']; exact Hk.
  - destruct (is_Exception (exn_cls e)); exact Hok.
Qed.

End Sessions.

(** C1, as the code has it.  In every run of the helper each Session gets
    at most one exit event.  An output event can still follow it: the exit
    check clears the process id but keeps the PTY master descriptor, and
    whatever is read from the descriptor afterwards is sent as output. *)
Theorem exit_at_most_once_per_session (lib : Lib) {W} (os : OS W) :
  (forall n o, exit_at_most_once (sent (main lib os n o).2))
  /\ (forall w : world W,
        master_fd (self (_check_exit os w).2) = master_fd (self w))
  /\ (forall readable fd data o (w : world W),
        master_fd (self w) = Some fd ->
        fd ∈ readable ->
        os_read os fd 16384 (outside w) = (Ret data, o) ->
        data <> [] ->
        exists w',
          read_output lib os readable w = (Done tt, w')
          /\ sent w' = sent w ++ [Output (decode_replace lib data)]).
Proof.
  split; [|split].
  - intros n o. unfold main. apply main_handlers_after, run_after.
    unfold closed_means_no_pid. simpl. exact I.
  - apply check_exit_keeps_master.
  - intros readable fd data o w Hfd Hin Hread Hdata.
    unfold read_output. unfold_M. rewrite Hfd.
    rewrite bool_decide_eq_true_2 by exact Hin. rewrite Hread.
    destruct data as [|c data]; [congruence|]. rewrite _send_eq.
    eexists. split; reflexivity.
Qed.

(** The run of [late_output], and a read of the PTY after the exit. *)
Lemma exit_at_most_once_per_session_witness :
  exit_at_most_once (sent (main Script.lib (scripted late_output) 4 0%nat).2)
  /\ exists w',
       read_output Script.lib
         (scripted [master_reads 5 (Ret (raw (lit "late"))) quiet]) [5]
         (exited 1) = (Done tt, w')
       /\ sent w' = [Spawned 100; Exit 0; Output (lit "late")].
Proof.
  split.
  - apply (proj1 (exit_at_most_once_per_session Script.lib
                    (scripted late_output))).
  - apply (proj2 (proj2 (exit_at_most_once_per_session Script.lib
                           (scripted [master_reads 5 (Ret (raw (lit "late")))
                                        quiet])))
             [5] 5 (raw (lit "late")) 1%nat (exited 1)).
    + reflexivity.
    + constructor.
    + reflexivity.
    + discriminate.
Defined.

(** C1, as stated, fails in its second half: after the exit of child 100
    has been sent, the PTY master 5 is still watched, and what it yields is
    sent as output of the same Session. *)
Lemma output_follows_exit :
  let r := main Script.lib (scripted late_output) 4 0%nat in
  sent r.2 = [Spawned 100; Exit 0; Output (lit "late")]
  /\ ~ exit_once_and_last (sent r.2).
Proof.
  split.
  - vm_compute. reflexivity.
  - intros H. apply H. vm_compute. reflexivity.
Qed.

(** ** Scenarios of the specification *)

Example echo_hi_events :
  sent (main Script.lib (scripted echo_hi) 4 0%nat).2
  = [Spawned 100; Output (lit "hi" ++ [NL]); Exit 0].
Proof. vm_compute. reflexivity. Qed.

Example write_before_spawn :
  sent (main Script.lib
          (scripted [plugin_sends (ln "{'type':'write','data':'x'}") quiet])
          2 0%nat).2 = [].
Proof. vm_compute. reflexivity. Qed.

Example kill_before_spawn :
  sent (main Script.lib
          (scripted [plugin_sends (ln "{'type':'kill'}") quiet]) 2 0%nat).2
  = [Killed].
Proof. vm_compute. reflexivity. Qed.

Example close_with_running_child :
  main Script.lib
    (scripted [plugin_sends (ln spawn_echo_line)
                 (fork_answers (Ret (100, 5)) quiet);
               stdin_answers (Ret []) quiet]) 5 0%nat
  = (Exited 0,
     {| self := {| master_fd := Some 5; pid := Some 100; running := true |};
        sent := [Spawned 100]; stderr := []; outside := 2%nat |}).
Proof. vm_compute. reflexivity. Qed.

(** Dimensions that do not fit 16 bits: [struct.pack] raises, which is not
    an [OSError], and the exception leaves [resize] with nothing sent. *)
Example resize_out_of_range :
  resize Script.lib (scripted [quiet]) (JInt 70000) (JInt 24) (active 1)
  = (Raised (Exn StructError (lit "argument out of range")), active 1).
Proof. vm_compute. reflexivity. Qed.

(** ** Properties kept along every run *)

Section Preserved.

Context (lib : Lib) {W : Type} (os : OS W).
Context (Inv Ok : PtyHelper -> list event -> Prop).
Context (Hpres : preserved Inv Ok).

Implicit Types w : world W.

Lemma check_exit_preserves w :
  holds Inv w -> holds Inv (_check_exit os w).2.
Proof.
  intros Hinv. unfold _check_exit. unfold_M.
  destruct (pid (self w)) as [p|] eqn:Hpid; [|exact Hinv].
  assert (Hexit : forall c (o : W),
            holds Inv
              {| self := reaped (self w); sent := sent w ++ [Exit c];
                 stderr := stderr w; outside := o |}).
  { intros c o. unfold holds; cbn [self sent]; apply (pres_exit _ _ Hpres); [exact Hinv | congruence]. }
  destruct (os_waitpid os p (outside w)) as [[[p' status]|e] o]; simpl.
  - destruct (p' =? 0); simpl; [exact Hinv|]. rewrite _send_eq. apply Hexit.
  - destruct (is_class ChildProcessError (exn_cls e)); simpl; [|exact Hinv].
    rewrite _send_eq. apply Hexit.
Qed.

Lemma kill_preserves w : holds Inv w -> holds Inv (kill os w).2.
Proof.
  intros Hinv. unfold kill. unfold_M.
  assert (Hk : forall o : W,
            holds Inv
              {| self := stop_running (self w); sent := sent w ++ [Killed];
                 stderr := stderr w; outside := o |}).
  { intros o. unfold holds; cbn [self sent]; apply (pres_killed _ _ Hpres), Hinv. }
  destruct (pid (self w)) as [p|].
  - destruct (os_kill os p SIGTERM (outside w)) as [[[]|e] o]; simpl.
    + rewrite _send_eq. apply Hk.
    + destruct (is_class ProcessLookupError (exn_cls e)); simpl;
        [|exact Hinv].
      rewrite _send_eq. apply Hk.
  - rewrite _send_eq. apply Hk.
Qed.

Lemma write_preserves (data : json) w :
  holds Inv w -> holds Inv (write lib os data w).2.
Proof.
  intros Hinv. unfold write, encode. unfold_M.
  destruct (master_fd (self w)) as [fd|]; [|exact Hinv].
  assert (Herr : forall m (o : W),
            holds Inv
              {| self := self w; sent := sent w ++ [Error m];
                 stderr := stderr w; outside := o |}).
  { intros m o. unfold holds; cbn [self sent]; apply (pres_error _ _ Hpres), Hinv. }
  destruct data; simpl; try exact Hinv.
  destruct (encode_utf8 lib s) as [b|e]; simpl.
  - destruct (os_write os fd b (outside w)) as [[z|e] o]; simpl.
    + exact Hinv.
    + destruct (is_OSError (exn_cls e)); [|exact Hinv].
      rewrite _send_eq. apply Herr.
  - destruct (is_OSError (exn_cls e)); [|exact Hinv].
    rewrite _send_eq. apply Herr.
Qed.

Lemma resize_preserves (cols rows : json) w :
  holds Inv w -> holds Inv (resize lib os cols rows w).2.
Proof.
  intros Hinv. unfold resize. unfold_M.
  destruct (master_fd (self w)) as [fd|]; [|exact Hinv].
  destruct (struct_pack_HHHH lib rows cols 0 0) as [ws|e]; simpl.
  - destruct (ioctl_TIOCSWINSZ os fd ws (outside w)) as [[[]|e] o]; simpl.
    + exact Hinv.
    + destruct (is_OSError (exn_cls e)); exact Hinv.
  - destruct (is_OSError (exn_cls e)); exact Hinv.
Qed.

Lemma ended_with_inv {A} (r : outcome A * world W) :
  holds Inv r.2 -> ended_with Inv Ok r.
Proof.
  intros H. unfold ended_with.
  destruct r.1; [exact H | |]; apply (pres_weaken _ _ Hpres), H.
Qed.

Lemma spawn_preserves (cmd args cwd env : json) w :
  holds Inv w -> ended_with Inv Ok (spawn os cmd args cwd env w).
Proof.
  intros Hinv. pose proof (pres_weaken _ _ Hpres _ _ Hinv) as Hok.
  unfold spawn, merged_env, argv_of, execvpe, _set_nonblocking, ended_with.
  unfold_M.
  destruct env; simpl; try exact Hok.
  destruct (pty_fork os (outside w)) as [[[p fd]|e] o]; simpl; [|exact Hok].
  assert (Hchild : holds Ok
            {| self := {| master_fd := Some fd; pid := Some p;
                          running := running (self w) |};
               sent := sent w; stderr := stderr w; outside := o |}).
  { unfold holds; cbn [self sent]; apply (pres_forked _ _ Hpres (self w)); [exact Hinv | left; reflexivity]. }
  assert (Hparent : holds Ok
            {| self := {| master_fd := Some fd; pid := Some p;
                          running := true |};
               sent := sent w; stderr := stderr w; outside := o |}).
  { unfold holds; cbn [self sent]; apply (pres_forked _ _ Hpres (self w)); [exact Hinv | right; reflexivity]. }
  destruct (p =? 0); simpl.
  - destruct (os_chdir os cwd o) as [[[]|e] o1]; simpl.
    + destruct args; simpl; try exact Hchild.
      destruct (os_execvpe _ _ _ _ _) as [[e|] o2]; exact Hchild.
    + destruct (is_OSError (exn_cls e)); simpl; [|exact Hchild].
      destruct args; simpl; try exact Hchild.
      destruct (os_execvpe _ _ _ _ _) as [[e'|] o2]; exact Hchild.
  - destruct (fcntl_GETFL os fd o) as [[flags|e] o1]; simpl; [|exact Hparent].
    destruct (fcntl_SETFL os fd _ o1) as [[[]|e] o2]; simpl; [|exact Hparent].
    rewrite _send_eq. unfold holds; cbn [self sent]; apply (pres_spawned _ _ Hpres (self w)), Hinv.
Qed.

Lemma handle_command_preserves (line : str) w :
  holds Inv w -> ended_with Inv Ok (_handle_command lib os line w).
Proof.
  intros Hinv. pose proof (pres_weaken _ _ Hpres _ _ Hinv) as Hok.
  unfold _handle_command.
  unfold mbind, M_bind, try_except, pure_call, raise, mret, M_ret, isinstance.
  destruct (json_loads lib line) as [v|e]; simpl.
  - destruct v; try exact Hok.
    destruct (py_eq_str _ (lit "spawn"));
      [|destruct (py_eq_str _ (lit "write"));
        [|destruct (py_eq_str _ (lit "resize"));
          [|destruct (py_eq_str _ (lit "kill"))]]].
    + unfold call. destruct (os_getcwd os (outside w)) as [[cwd|e] o]; simpl.
      * apply spawn_preserves. exact Hinv.
      * exact Hok.
    + apply ended_with_inv, write_preserves, Hinv.
    + apply ended_with_inv, resize_preserves, Hinv.
    + apply ended_with_inv, kill_preserves, Hinv.
    + apply ended_with_inv. rewrite _send_eq.
      unfold holds; cbn [self sent]; apply (pres_error _ _ Hpres), Hinv.
  - destruct (is_class JSONDecodeError (exn_cls e)); [|exact Hok].
    rewrite _send_eq. unfold holds; cbn [self sent]; apply (pres_error _ _ Hpres), Hinv.
Qed.

Lemma dispatch_lines_preserves (n : nat) (buffer : str) w :
  holds Inv w -> ended_with Inv Ok (dispatch_lines lib os n buffer w).
Proof.
  revert buffer w. induction n as [|n IH]; intros buffer w Hinv; simpl.
  - exact Hinv.
  - destruct (split_newline buffer) as [[line rest]|]; [|exact Hinv].
    unfold mbind, M_bind.
    destruct (strip_nonempty line).
    + pose proof (handle_command_preserves line w Hinv) as Hcmd.
      unfold ended_with in Hcmd.
      destruct (_handle_command lib os line w) as [[[]|e|] w1]; simpl in Hcmd.
      * apply IH, Hcmd.
      * exact Hcmd.
      * exact Hcmd.
    + apply IH, Hinv.
Qed.

Lemma read_commands_preserves (readable : list Z) (buffer : str) w :
  holds Inv w ->
  match read_commands lib os readable buffer w with
  | (Done (Continue _), w') => holds Inv w'
  | (_, w') => holds Ok w'
  end.
Proof.
  intros Hinv. pose proof (pres_weaken _ _ Hpres _ _ Hinv) as Hok.
  unfold read_commands. destruct (bool_decide (stdin_fd ∈ readable)).
  - unfold try_except, mbind, M_bind, call, isinstance.
    destruct (os_read os stdin_fd 4096 (outside w)) as [[chunk|e] o]; simpl.
    + destruct chunk as [|c chunk]; [exact Hok|].
      pose proof (dispatch_lines_preserves
                    (length (buffer ++ decode_replace lib (c :: chunk)))
                    (buffer ++ decode_replace lib (c :: chunk))
                    (with_outside w o) Hinv) as Hd.
      unfold ended_with in Hd.
      destruct (dispatch_lines _ _ _ _ _) as [[rest|e|] w1]; simpl in Hd |- *.
      * exact Hd.
      * destruct (is_OSError (exn_cls e)); exact Hd.
      * exact Hd.
    + destruct (is_OSError (exn_cls e)); exact Hok.
  - exact Hinv.
Qed.

Lemma read_output_preserves (readable : list Z) w :
  holds Inv w -> holds Inv (read_output lib os readable w).2.
Proof.
  intros Hinv. unfold read_output.
  unfold mbind, M_bind, get_self, try_except, call, isinstance.
  destruct (master_fd (self w)) as [fd|] eqn:Hfd; [|exact Hinv].
  destruct (bool_decide (fd ∈ readable)); [|exact Hinv].
  assert (Hw : forall o : W, holds Inv (with_outside w o)) by (intros; exact Hinv).
  destruct (os_read os fd 16384 (outside w)) as [[data|e] o]; simpl.
  - destruct data as [|c data].
    + pose proof (check_exit_preserves _ (Hw o)) as Hc.
      destruct (_check_exit os (with_outside w o)) as [[[]|e|] w1];
        simpl in Hc |- *; try exact Hc.
      destruct (is_OSError (exn_cls e)); [|exact Hc].
      apply check_exit_preserves, Hc.
    + rewrite _send_eq. unfold holds; cbn [self sent]; apply (pres_output _ _ Hpres); [exact Hinv|].
      simpl. congruence.
  - destruct (is_OSError (exn_cls e)); [|apply Hw].
    apply check_exit_preserves, Hw.
Qed.

Lemma round_preserves (buffer : str) w :
  holds Inv w ->
  match round lib os buffer w with
  | (Done (Continue _), w') => holds Inv w'
  | (_, w') => holds Ok w'
  end.
Proof.
  intros Hinv. pose proof (pres_weaken _ _ Hpres _ _ Hinv) as Hok.
  unfold round.
  unfold mbind, M_bind, get_self, try_except, call, isinstance, mret, M_ret.
  simpl.
  destruct (select_select os (watched (self w)) (outside w))
    as [[readable|e] o]; simpl.
  - pose proof (read_commands_preserves readable buffer (with_outside w o)
                  Hinv) as Hc.
    destruct (read_commands lib os readable buffer (with_outside w o))
      as [[[|buffer']|e|] w1]; simpl in Hc |- *; try exact Hc.
    pose proof (read_output_preserves readable w1 Hc) as Ho.
    destruct (read_output lib os readable w1) as [[[]|e|] w2]; simpl in Ho |- *.
    + destruct (bool_decide (pid (self w2) ≠ None) && negb (running (self w2)));
        simpl; [apply (pres_weaken _ _ Hpres)|]; exact Ho.
    + apply (pres_weaken _ _ Hpres), Ho.
    + apply (pres_weaken _ _ Hpres), Ho.
  - destruct (is_OSError (exn_cls e) || is_ValueError (exn_cls e));
      exact Hok.
Qed.

(** While the loop goes on the property holds; once it is left, what is
    left of it does. *)
Lemma loop_preserves (n : nat) (buffer : str) w :
  holds Inv w ->
  match loop lib os n buffer w with
  | (Done (StillLooping _), w') => holds Inv w'
  | (_, w') => holds Ok w'
  end.
Proof.
  revert buffer w. induction n as [|n IH]; intros buffer w Hinv; simpl.
  - exact Hinv.
  - pose proof (round_preserves buffer w Hinv) as Hr.
    unfold mbind, M_bind.
    destruct (round lib os buffer w) as [[[|buffer']|e|] w1]; simpl;
      try exact Hr.
    apply IH, Hr.
Qed.

Lemma loop_preserves_weak (n : nat) (buffer : str) w :
  holds Inv w -> holds Ok (loop lib os n buffer w).2.
Proof.
  intros Hinv. pose proof (loop_preserves n buffer w Hinv) as H.
  destruct (loop lib os n buffer w) as [[[|b]|e|] w']; simpl in *;
    try exact H.
  apply (pres_weaken _ _ Hpres), H.
Qed.

Lemma main_preserves (n : nat) (o : W) :
  Inv PtyHelper_init [] -> holds Ok (main lib os n o).2.
Proof.
  intros Hinit. unfold main.
  assert (Hrun : holds Ok (run lib os n (start o)).2).
  { unfold run, _set_nonblocking. unfold mbind, M_bind, call.
    pose proof (pres_weaken _ _ Hpres _ _ Hinit) as Hok.
    destruct (fcntl_GETFL os stdin_fd (outside (start o)))
      as [[flags|e] o1]; simpl; [|exact Hok].
    destruct (fcntl_SETFL os stdin_fd _ o1) as [[[]|e] o2]; simpl;
      [|exact Hok].
    apply loop_preserves_weak. exact Hinit. }
  destruct (run lib os n (start o)) as [[[|buffer]|e|] w]; simpl in Hrun |- *;
    try exact Hrun.
  unfold isinstance. destruct (is_class KeyboardInterrupt (exn_cls e)).
  - assert (Hk : holds Ok (kill os w).2).
    { unfold kill. unfold_M.
      assert (Hsend : forall o' : W,
                holds Ok
                  {| self := stop_running (self w); sent := sent w ++ [Killed];
                     stderr := stderr w; outside := o' |}).
      { intros o'. unfold holds; cbn [self sent]; apply (pres_last_kill _ _ Hpres), Hrun. }
      destruct (pid (self w)) as [p|].
      - destruct (os_kill os p SIGTERM (outside w)) as [[[]|e'] o']; simpl.
        + rewrite _send_eq. apply Hsend.
        + destruct (is_class ProcessLookupError (exn_cls e')); simpl;
            [|exact Hrun].
          rewrite _send_eq. apply Hsend.
      - rewrite _send_eq. apply Hsend. }
    destruct (kill os w) as [[[]|e'|] w']; exact Hk.
  - destruct (is_Exception (exn_cls e)); exact Hrun.
Qed.

End Preserved.

Lemma coherent_preserved :
  preserved (fun h _ => coherent h) (fun h _ => coherent h).
Proof.
  split; unfold coherent, stop_running, reaped; simpl; intros;
    intuition (discriminate || congruence).
Qed.

(** X1. The fields of the helper agree with each other at every point a run
    can be observed: a Session marked as running has a process id on record,
    and a process id comes with a PTY master descriptor. *)
Theorem fields_stay_coherent (lib : Lib) {W} (os : OS W) (n : nat) (o : W) :
  coherent (self (main lib os n o).2).
Proof.
  apply (main_preserves lib os _ _ coherent_preserved n o).
  split; simpl; [discriminate | tauto].
Qed.

Lemma announced_snoc (l : list event) (ev : event) :
  announced (l ++ [ev]) = announce_step (announced l) ev.
Proof. unfold announced. rewrite fold_left_app. reflexivity. Qed.

Lemma session_announced_preserved :
  preserved session_announced (fun _ l => spawned_first l).
Proof.
  split; unfold session_announced, spawned_first.
  - intros h l H. destruct (announced l); [discriminate | contradiction].
  - intros h l m. rewrite announced_snoc.
    destruct (announced l) as [[]|]; simpl; auto.
  - intros h l d H Hfd. rewrite announced_snoc.
    destruct (announced l) as [[]|]; simpl; auto. destruct H. contradiction.
  - intros h l. rewrite announced_snoc.
    destruct (announced l) as [[]|]; simpl; auto.
  - intros h l c H Hpid. rewrite announced_snoc.
    destruct (announced l) as [[]|]; simpl; auto. destruct H. contradiction.
  - intros h l p fd H. rewrite announced_snoc.
    destruct (announced l) as [[]|]; simpl; auto.
  - intros h l p fd r H _. destruct (announced l); [discriminate | contradiction].
  - intros h l H. rewrite announced_snoc.
    destruct (announced l) as [[]|]; simpl; congruence.
Qed.

(** X2. In every run, each output event and each exit event comes after a
    spawned event: nothing is relayed or reported for a child that has not
    been announced, also when a spawn breaks off after the fork. *)
Theorem output_and_exit_follow_spawned (lib : Lib) {W} (os : OS W)
    (n : nat) (o : W) :
  spawned_first (sent (main lib os n o).2).
Proof.
  apply (main_preserves lib os _ _ session_announced_preserved n o).
  unfold session_announced. simpl. split; reflexivity.
Qed.

Lemma master_recorded_preserved :
  preserved (fun h _ => master_fd h <> None) (fun h _ => master_fd h <> None).
Proof. split; simpl; auto; discriminate. Qed.

(** X3. The PTY master descriptor is never given up: if one is on record,
    one is on record after any number of rounds of the loop, whatever
    commands, exits and errors occur in them. *)
Theorem master_fd_is_never_cleared (lib : Lib) {W} (os : OS W) (n : nat)
    (buffer : str) (w : world W) :
  master_fd (self w) <> None ->
  master_fd (self (loop lib os n buffer w).2) <> None.
Proof.
  intros H.
  apply (loop_preserves_weak lib os _ _ master_recorded_preserved n buffer w H).
Qed.

(** The child exits and is reaped; the descriptor 5 stays on record. *)
Lemma master_fd_is_never_cleared_witness :
  master_fd (self (loop Script.lib (scripted child_exits) 4 [] (active 0)).2)
  <> None.
Proof.
  apply (master_fd_is_never_cleared Script.lib (scripted child_exits) 4 []
           (active 0)).
  discriminate.
Defined.

(** ** Lines and chunks *)

Section Lines.

Context (lib : Lib) {W : Type} (os : OS W).

Implicit Types w : world W.

Lemma split_newline_app (t1 t2 line rest : str) :
  split_newline t1 = Some (line, rest) ->
  split_newline (t1 ++ t2) = Some (line, rest ++ t2).
Proof.
  revert line rest. induction t1 as [|c t1 IH]; intros line rest; simpl.
  - discriminate.
  - destruct (c =? NL)%N.
    + intros [= <- <-]. reflexivity.
    + destruct (split_newline t1) as [[l r]|]; [|discriminate].
      intros [= <- <-]. rewrite (IH l r eq_refl). reflexivity.
Qed.

Lemma split_newline_elem (buffer line rest : str) (c : N) :
  split_newline buffer = Some (line, rest) -> c ∈ line -> c ∈ buffer.
Proof.
  revert line rest. induction buffer as [|x b IH]; intros line rest; simpl.
  - discriminate.
  - destruct (x =? NL)%N.
    + intros [= <- <-] Hc. inversion Hc.
    + destruct (split_newline b) as [[l r]|]; [|discriminate].
      intros [= <- <-] Hc. apply elem_of_cons in Hc as [->|Hc].
      * left.
      * right. eapply IH; [reflexivity | exact Hc].
Qed.

Lemma split_newline_rest_elem (buffer line rest : str) (c : N) :
  split_newline buffer = Some (line, rest) -> c ∈ rest -> c ∈ buffer.
Proof.
  revert line rest. induction buffer as [|x b IH]; intros line rest; simpl.
  - discriminate.
  - destruct (x =? NL)%N.
    + intros [= <- <-] Hc. right. exact Hc.
    + destruct (split_newline b) as [[l r]|]; [|discriminate].
      intros [= <- <-] Hc. right. eapply IH; [reflexivity | exact Hc].
Qed.

(** More rounds than the buffer has characters change nothing. *)
Lemma dispatch_lines_rounds (n : nat) :
  forall (buffer : str), (length buffer <= n)%nat ->
  forall m, (length buffer <= m)%nat ->
  forall w, dispatch_lines lib os n buffer w = dispatch_lines lib os m buffer w.
Proof.
  induction n as [|n IH]; intros buffer Hn m Hm w.
  - destruct buffer; [|simpl in Hn; lia]. destruct m; reflexivity.
  - destruct (split_newline buffer) as [[line rest]|] eqn:Hsplit.
    + pose proof (split_newline_length _ _ _ Hsplit) as Hlen.
      destruct m as [|m]; [lia|]. simpl. rewrite Hsplit.
      unfold mbind, M_bind.
      destruct (if strip_nonempty line then _ else _) as [[[]|e|] w1];
        try reflexivity.
      apply IH; lia.
    + rewrite !dispatch_lines_no_newline by exact Hsplit. reflexivity.
Qed.

Lemma dispatch_lines_chunked (k : nat) :
  forall (t1 t2 : str) w, (length t1 <= k)%nat ->
  dispatch_lines lib os (length (t1 ++ t2)) (t1 ++ t2) w =
  match dispatch_lines lib os (length t1) t1 w with
  | (Done rest, w') =>
      dispatch_lines lib os (length (rest ++ t2)) (rest ++ t2) w'
  | (Raised e, w') => (Raised e, w')
  | (Execed, w') => (Execed, w')
  end.
Proof.
  induction k as [|k IH]; intros t1 t2 w Hk.
  - destruct t1; [|simpl in Hk; lia]. reflexivity.
  - destruct (split_newline t1) as [[line rest]|] eqn:Hsplit.
    + pose proof (split_newline_length _ _ _ Hsplit) as Hlen.
      pose proof (split_newline_app t1 t2 _ _ Hsplit) as Happ.
      pose proof (split_newline_length _ _ _ Happ) as Hlen2.
      rewrite Hlen, Hlen2. simpl. rewrite Hsplit, Happ.
      unfold mbind, M_bind.
      destruct (if strip_nonempty line then _ else _) as [[[]|e|] w1];
        try reflexivity.
      rewrite (dispatch_lines_rounds (length line + length (rest ++ t2))
                 (rest ++ t2) ltac:(lia) (length (rest ++ t2)) ltac:(lia)).
      rewrite (dispatch_lines_rounds (length line + length rest) rest
                 ltac:(lia) (length rest) ltac:(lia)).
      apply IH. lia.
    + rewrite (dispatch_lines_no_newline lib os _ t1) by exact Hsplit.
      reflexivity.
Qed.

End Lines.

(** X4. How the input is cut into chunks does not matter to the commands:
    dispatching the lines of [t1] and then, with what was left in the buffer,
    those of [t2], is dispatching the lines of [t1 ++ t2] at once. *)
Theorem chunks_dispatch_like_the_whole (lib : Lib) {W} (os : OS W)
    (t1 t2 : str) (w : world W) :
  dispatch_lines lib os (length (t1 ++ t2)) (t1 ++ t2) w =
  match dispatch_lines lib os (length t1) t1 w with
  | (Done rest, w') =>
      dispatch_lines lib os (length (rest ++ t2)) (rest ++ t2) w'
  | (Raised e, w') => (Raised e, w')
  | (Execed, w') => (Execed, w')
  end.
Proof. apply (dispatch_lines_chunked lib os (length t1)). lia. Qed.

(** X5. Input made of white space only (blank lines, whatever their number)
    is never decoded: nothing is sent, nothing changes. *)
Theorem blank_input_is_ignored (lib : Lib) {W} (os : OS W) (n : nat)
    (buffer : str) (w : world W) :
  (forall c, c ∈ buffer -> is_space c = true) ->
  exists rest, dispatch_lines lib os n buffer w = (Done rest, w).
Proof.
  revert buffer. induction n as [|n IH]; intros buffer Hblank; simpl.
  - exists buffer. reflexivity.
  - destruct (split_newline buffer) as [[line rest]|] eqn:Hsplit.
    + assert (Hline : strip_nonempty line = false).
      { unfold strip_nonempty. apply not_true_is_false. intros Hex.
        apply existsb_exists in Hex as (c & Hc & Hns).
        apply list_elem_of_In in Hc.
        rewrite (Hblank c) in Hns; [discriminate|].
        eapply split_newline_elem; eassumption. }
      rewrite Hline. unfold mbind, M_bind, pass, mret, M_ret.
      apply IH. intros c Hc. apply Hblank.
      eapply split_newline_rest_elem; eassumption.
    + exists buffer. reflexivity.
Qed.

(** Two blank lines: spaces, then a tab. *)
Lemma blank_input_is_ignored_witness :
  exists rest,
    dispatch_lines Script.lib (scripted [quiet]) 5 [32; 32; NL; 9; NL]%N
      (active 1) = (Done rest, active 1).
Proof.
  apply (blank_input_is_ignored Script.lib (scripted [quiet]) 5
           [32; 32; NL; 9; NL]%N (active 1)).
  intros c Hc.
  repeat (apply elem_of_cons in Hc as [->|Hc]; [reflexivity|]).
  inversion Hc.
Defined.

(** X6. A chunk that completes no line dispatches nothing: it is appended
    to the buffer, which the round hands on, and the helper is as it was. *)
Theorem partial_line_is_buffered (lib : Lib) {W} (os : OS W)
    (readable : list Z) (buffer : str) (chunk : bytes) (w : world W) (o : W) :
  stdin_fd ∈ readable ->
  os_read os stdin_fd 4096 (outside w) = (Ret chunk, o) ->
  chunk <> [] ->
  split_newline (buffer ++ decode_replace lib chunk) = None ->
  read_commands lib os readable buffer w =
  (Done (Continue (buffer ++ decode_replace lib chunk)), with_outside w o).
Proof.
  intros Hin Hread Hchunk Hsplit. unfold read_commands.
  rewrite bool_decide_eq_true_2 by exact Hin.
  unfold try_except, mbind, M_bind, call. rewrite Hread.
  destruct chunk as [|c chunk]; [congruence|].
  rewrite dispatch_lines_no_newline by exact Hsplit. reflexivity.
Qed.

(** The first half of a kill command arrives. *)
Lemma partial_line_is_buffered_witness :
  read_commands Script.lib (scripted [plugin_sends "{'type':" quiet])
    [stdin_fd] [] (active 1)
  = (Done (Continue (text "{'type':")), active 1).
Proof.
  apply (partial_line_is_buffered Script.lib
           (scripted [plugin_sends "{'type':" quiet]) [stdin_fd] []
           (raw (text "{'type':")) (active 1) 1%nat).
  - constructor.
  - reflexivity.
  - discriminate.
  - reflexivity.
Defined.

(** ** Commands and their fields *)

(** X7. Fields left out of a command take the defaults of the source: a
    resize without dimensions is a resize to 80 columns and 24 rows, a write
    without data writes the empty string, and a spawn with nothing but its
    type runs the empty command with no arguments, in the helper's own
    working directory, with no overrides of the environment. *)
Theorem missing_fields_take_defaults (lib : Lib) {W} (os : OS W) (line : str)
    (cmd : gmap (list N) json) (w : world W) :
  json_loads lib line = Ret (JObj cmd) ->
  (cmd !! lit "type" = Some (JStr (lit "resize")) ->
   cmd !! lit "cols" = None -> cmd !! lit "rows" = None ->
   _handle_command lib os line w = resize lib os (JInt 80) (JInt 24) w)
  /\ (cmd !! lit "type" = Some (JStr (lit "write")) ->
      cmd !! lit "data" = None ->
      _handle_command lib os line w = write lib os (JStr []) w)
  /\ (cmd !! lit "type" = Some (JStr (lit "spawn")) ->
      cmd !! lit "cmd" = None -> cmd !! lit "args" = None ->
      cmd !! lit "cwd" = None -> cmd !! lit "env" = None ->
      _handle_command lib os line w =
      (cwd ← call (os_getcwd os);
       spawn os (JStr []) (JArr []) (JStr cwd) (JObj ∅)) w).
Proof.
  intros Hloads.
  repeat split.
  - intros Htype Hcols Hrows. unfold _handle_command. unfold_M.
    rewrite Hloads. simpl. unfold dict_get. rewrite Htype, Hcols, Hrows.
    reflexivity.
  - intros Htype Hdata. unfold _handle_command. unfold_M.
    rewrite Hloads. simpl. unfold dict_get. rewrite Htype, Hdata.
    reflexivity.
  - intros Htype Hc Ha Hcwd Henv. unfold _handle_command. unfold_M.
    rewrite Hloads. simpl. unfold dict_get.
    rewrite Htype, Hc, Ha, Hcwd, Henv. reflexivity.
Qed.

(** The commands [{"type":"resize"}] and [{"type":"write"}]. *)
Lemma missing_fields_take_defaults_witness :
  _handle_command Cases.lib (scripted [quiet]) (text "{'type':'resize'}")
    (active 1)
  = resize Cases.lib (scripted [quiet]) (JInt 80) (JInt 24) (active 1)
  /\ _handle_command Cases.lib (scripted [quiet]) (text "{'type':'write'}")
       (active 1)
     = write Cases.lib (scripted [quiet]) (JStr []) (active 1).
Proof.
  split.
  - apply (proj1 (missing_fields_take_defaults Cases.lib (scripted [quiet])
                    (text "{'type':'resize'}")
                    (list_to_map [(lit "type", JStr (lit "resize"))])
                    (active 1) eq_refl)); reflexivity.
  - apply (proj1 (proj2 (missing_fields_take_defaults Cases.lib
                           (scripted [quiet]) (text "{'type':'write'}")
                           (list_to_map [(lit "type", JStr (lit "write"))])
                           (active 1) eq_refl))); reflexivity.
Defined.

(** X8. Fields of the wrong type are not rejected with an error event, they
    raise: data that is not a string raises [AttributeError] when a PTY is
    on record (and is not looked at when none is), and an environment that
    is not an object raises [TypeError] before any fork.  Nothing is sent
    and the fields of the helper are as before. *)
Theorem ill_typed_fields_raise (lib : Lib) {W} (os : OS W) (line : str)
    (cmd : gmap (list N) json) (w : world W) :
  json_loads lib line = Ret (JObj cmd) ->
  (forall fd v,
     cmd !! lit "type" = Some (JStr (lit "write")) ->
     master_fd (self w) = Some fd ->
     cmd !! lit "data" = Some v ->
     (forall s, v <> JStr s) ->
     exists e,
       _handle_command lib os line w = (Raised e, w)
       /\ exn_cls e = AttributeError)
  /\ (forall v,
        cmd !! lit "type" = Some (JStr (lit "write")) ->
        master_fd (self w) = None ->
        cmd !! lit "data" = Some v ->
        _handle_command lib os line w = (Done tt, w))
  /\ (forall v cwd o,
        cmd !! lit "type" = Some (JStr (lit "spawn")) ->
        cmd !! lit "env" = Some v ->
        (forall d, v <> JObj d) ->
        os_getcwd os (outside w) = (Ret cwd, o) ->
        exists e,
          _handle_command lib os line w = (Raised e, with_outside w o)
          /\ exn_cls e = TypeError).
Proof.
  intros Hloads. repeat split.
  - intros fd v Htype Hfd Hdata Hv. unfold _handle_command, write, encode.
    unfold_M. rewrite Hloads. simpl. unfold dict_get. rewrite Htype, Hdata.
    simpl. rewrite Hfd.
    destruct v; try (eexists; split; reflexivity).
    exfalso. eapply Hv. reflexivity.
  - intros v Htype Hfd Hdata. unfold _handle_command, write. unfold_M.
    rewrite Hloads. simpl. unfold dict_get. rewrite Htype. simpl.
    rewrite Hfd. reflexivity.
  - intros v cwd o Htype Henv Hv Hcwd. unfold _handle_command, spawn, merged_env.
    unfold_M. rewrite Hloads. simpl. unfold dict_get. rewrite Htype, Henv.
    simpl. rewrite Hcwd.
    destruct v; try (eexists; split; reflexivity).
    exfalso. eapply Hv. reflexivity.
Qed.

(** The commands [{"type":"write","data":5}], with and without a PTY, and
    [{"type":"spawn","env":null}]. *)
Lemma ill_typed_fields_raise_witness :
  (exists e,
     _handle_command Cases.lib (scripted [quiet])
       (text "{'type':'write','data':5}") (active 1) = (Raised e, active 1)
     /\ exn_cls e = AttributeError)
  /\ _handle_command Cases.lib (scripted [quiet])
       (text "{'type':'write','data':5}") (idle 1) = (Done tt, idle 1)
  /\ (exists e,
        _handle_command Cases.lib (scripted [quiet])
          (text "{'type':'spawn','env':null}") (idle 1) = (Raised e, idle 1)
        /\ exn_cls e = TypeError).
Proof.
  split; [|split].
  - apply (proj1 (ill_typed_fields_raise Cases.lib (scripted [quiet])
                    (text "{'type':'write','data':5}")
                    (list_to_map [(lit "type", JStr (lit "write"));
                                  (lit "data", JInt 5)])
                    (active 1) eq_refl) 5 (JInt 5));
      try reflexivity.
    discriminate.
  - apply (proj1 (proj2 (ill_typed_fields_raise Cases.lib (scripted [quiet])
                    (text "{'type':'write','data':5}")
                    (list_to_map [(lit "type", JStr (lit "write"));
                                  (lit "data", JInt 5)])
                    (idle 1) eq_refl)) (JInt 5)); reflexivity.
  - apply (proj2 (proj2 (ill_typed_fields_raise Cases.lib (scripted [quiet])
                    (text "{'type':'spawn','env':null}")
                    (list_to_map [(lit "type", JStr (lit "spawn"));
                                  (lit "env", JNull)])
                    (idle 1) eq_refl)) JNull (lit "/") 1%nat);
      try reflexivity.
    discriminate.
Defined.

Section OneEvent.

Context (lib : Lib) {W : Type} (os : OS W).

Implicit Types w : world W.

Lemma spawn_one_event (cmd args cwd env : json) w :
  sent (spawn os cmd args cwd env w).2 = sent w
  \/ exists ev, sent (spawn os cmd args cwd env w).2 = sent w ++ [ev].
Proof.
  unfold spawn, merged_env, argv_of, execvpe, _set_nonblocking. unfold_M.
  destruct env; simpl; auto.
  destruct (pty_fork os (outside w)) as [[[p fd]|e] o]; simpl; auto.
  destruct (p =? 0); simpl.
  - destruct (os_chdir os cwd o) as [[[]|e] o1]; simpl.
    + destruct args; simpl; auto.
      destruct (os_execvpe _ _ _ _ _) as [[e|] o2]; auto.
    + destruct (is_OSError (exn_cls e)); simpl; auto.
      destruct args; simpl; auto.
      destruct (os_execvpe _ _ _ _ _) as [[e'|] o2]; auto.
  - destruct (fcntl_GETFL os fd o) as [[flags|e] o1]; simpl; auto.
    destruct (fcntl_SETFL os fd _ o1) as [[[]|e] o2]; simpl; auto.
    rewrite _send_eq. simpl. eauto.
Qed.

Lemma write_one_event (data : json) w :
  sent (write lib os data w).2 = sent w
  \/ exists ev, sent (write lib os data w).2 = sent w ++ [ev].
Proof.
  unfold write, encode. unfold_M.
  destruct (master_fd (self w)) as [fd|]; auto.
  destruct data; simpl; auto.
  destruct (encode_utf8 lib s) as [b|e]; simpl.
  - destruct (os_write os fd b (outside w)) as [[z|e] o]; simpl; auto.
    destruct (is_OSError (exn_cls e)); auto.
    rewrite _send_eq. simpl. eauto.
  - destruct (is_OSError (exn_cls e)); auto.
    rewrite _send_eq. simpl. eauto.
Qed.

Lemma kill_one_event w :
  sent (kill os w).2 = sent w
  \/ exists ev, sent (kill os w).2 = sent w ++ [ev].
Proof.
  unfold kill. unfold_M.
  destruct (pid (self w)) as [p|].
  - destruct (os_kill os p SIGTERM (outside w)) as [[[]|e] o]; simpl.
    + rewrite _send_eq. simpl. eauto.
    + destruct (is_class ProcessLookupError (exn_cls e)); simpl; auto.
      rewrite _send_eq. simpl. eauto.
  - rewrite _send_eq. simpl. eauto.
Qed.

Lemma resize_no_event (cols rows : json) w :
  sent (resize lib os cols rows w).2 = sent w.
Proof.
  unfold resize. unfold_M.
  destruct (master_fd (self w)) as [fd|]; auto.
  destruct (struct_pack_HHHH lib rows cols 0 0) as [ws|e]; simpl.
  - destruct (ioctl_TIOCSWINSZ os fd ws (outside w)) as [[[]|e] o]; simpl;
      auto.
    destruct (is_OSError (exn_cls e)); auto.
  - destruct (is_OSError (exn_cls e)); auto.
Qed.

End OneEvent.

(** X9. A command line is answered by at most one event, however it ends:
    the events sent are those sent before, or those and one more. *)
Theorem command_sends_at_most_one_event (lib : Lib) {W} (os : OS W)
    (line : str) (w : world W) :
  sent (_handle_command lib os line w).2 = sent w
  \/ exists ev, sent (_handle_command lib os line w).2 = sent w ++ [ev].
Proof.
  unfold _handle_command.
  unfold mbind, M_bind, try_except, pure_call, raise, mret, M_ret, isinstance.
  destruct (json_loads lib line) as [v|e]; simpl.
  - destruct v; auto.
    destruct (py_eq_str _ (lit "spawn"));
      [|destruct (py_eq_str _ (lit "write"));
        [|destruct (py_eq_str _ (lit "resize"));
          [|destruct (py_eq_str _ (lit "kill"))]]].
    + unfold call. destruct (os_getcwd os (outside w)) as [[cwd|e] o]; simpl;
        auto.
      apply (spawn_one_event os _ _ _ _ (with_outside w o)).
    + apply write_one_event.
    + left. apply resize_no_event.
    + apply kill_one_event.
    + rewrite _send_eq. simpl. eauto.
  - destruct (is_class JSONDecodeError (exn_cls e)); auto.
    rewrite _send_eq. simpl. eauto.
Qed.

(** X10. The environment of the child is the helper's own with the
    overrides of the command laid over it: a variable named in the command
    has the command's value, any other the inherited one. *)
Theorem environment_overrides_win {W} (os : OS W) (d : gmap (list N) json)
    (w : world W) :
  exists m,
    merged_env os (JObj d) w = (Done m, w)
    /\ forall k,
         m !! k = match d !! k with
                  | Some v => Some v
                  | None => JStr <$> (environ os !! k)
                  end.
Proof.
  eexists. split; [reflexivity|]. intros k.
  rewrite lookup_union, lookup_fmap.
  destruct (d !! k); destruct (_ !! k); reflexivity.
Qed.

(** ** Ways out of the loop *)

(** X11. What an exception of a command does to the helper depends on its
    class alone.  An [OSError] is taken for the end of the plugin's channel:
    the loop ends and the helper exits with status 0 without a word.  Any
    other exception (but an interrupt) leaves the loop, and [main] writes
    the diagnostic to [stderr] and exits with status 1. *)
Theorem command_exception_ends_helper
    (lib : Lib) {W} (os : OS W) (n : nat) (readable : list Z)
    (buffer line rest : str) (chunk : bytes) (w w' : world W) (o1 o2 : W)
    (e : exn) :
  select_select os (watched (self w)) (outside w) = (Ret readable, o1) ->
  stdin_fd ∈ readable ->
  os_read os stdin_fd 4096 o1 = (Ret chunk, o2) ->
  chunk <> [] ->
  split_newline (buffer ++ decode_replace lib chunk) = Some (line, rest) ->
  strip_nonempty line = true ->
  _handle_command lib os line (with_outside w o2) = (Raised e, w') ->
  (is_OSError (exn_cls e) = true ->
   main_handlers os (loop lib os (S n) buffer w) = (Exited 0, w'))
  /\ (is_OSError (exn_cls e) = false ->
      exn_cls e <> KeyboardInterrupt ->
      main_handlers os (loop lib os (S n) buffer w) =
      (Exited 1,
       {| self := self w'; sent := sent w';
          stderr := stderr w'
                    ++ [lit "PTY helper error: " ++ exn_text e ++ [NL]];
          outside := outside w' |})).
Proof.
  intros Hsel Hin Hread Hchunk Hsplit Hline Hcmd.
  rewrite (loop_first_line_raises lib os n readable buffer line rest chunk
             w w' o1 o2 e Hsel Hin Hread Hchunk Hsplit Hline Hcmd).
  split.
  - intros ->. reflexivity.
  - intros -> Hki. simpl. unfold isinstance, is_class.
    rewrite bool_decide_eq_false_2 by exact Hki.
    destruct (exn_cls e); try reflexivity. congruence.
Qed.

(** A write of data that is not a string, with a PTY on record. *)
Lemma command_exception_ends_helper_witness :
  exists w',
    main_handlers (scripted [plugin_sends (ln "{'type':'write','data':5}") quiet])
      (loop Cases.lib
         (scripted [plugin_sends (ln "{'type':'write','data':5}") quiet])
         2 [] (active 0))
    = (Exited 1, w')
    /\ sent w' = [Spawned 100]
    /\ stderr w'
       = [lit "PTY helper error: 'int' object has no attribute 'encode'"
          ++ [NL]].
Proof.
  eexists. split.
  - apply (proj2 (command_exception_ends_helper Cases.lib
             (scripted [plugin_sends (ln "{'type':'write','data':5}") quiet])
             1 [stdin_fd] [] (text "{'type':'write','data':5}") []
             (raw (text (ln "{'type':'write','data':5}")))
             (active 0) (active 1) 1%nat 1%nat
             (Exn AttributeError
                (lit "'int' object has no attribute 'encode'"))
             eq_refl ltac:(constructor) eq_refl ltac:(discriminate)
             eq_refl eq_refl eq_refl)).
    + reflexivity.
    + discriminate.
  - split; reflexivity.
Defined.

(** X12. When [select] raises an [OSError] or a [ValueError] the loop ends
    there, with nothing sent and the helper unchanged; any other exception
    of [select] leaves [run]. *)
Theorem select_failure_ends_loop (lib : Lib) {W} (os : OS W) (n : nat)
    (buffer : str) (w : world W) (e : exn) (o : W) :
  select_select os (watched (self w)) (outside w) = (Exc e, o) ->
  loop lib os (S n) buffer w =
  if is_OSError (exn_cls e) || is_ValueError (exn_cls e)
  then (Done Returned, with_outside w o)
  else (Raised e, with_outside w o).
Proof.
  intros Hsel. simpl. unfold round. unfold_M. simpl. rewrite Hsel. simpl.
  destruct (is_OSError (exn_cls e) || is_ValueError (exn_cls e));
    reflexivity.
Qed.

(** The PTY master has become a descriptor [select] does not accept. *)
Lemma select_failure_ends_loop_witness :
  loop Script.lib (scripted [Cases.select_raises Cases.EBADF]) 3 []
    (active 0) = (Done Returned, active 1).
Proof.
  apply (select_failure_ends_loop Script.lib
           (scripted [Cases.select_raises Cases.EBADF]) 2 [] (active 0)
           Cases.EBADF 1%nat).
  reflexivity.
Defined.

(** X14. When the plugin's channel cannot be made non-blocking at the start
    of [run], the exception is raised outside the loop: even an [OSError]
    then ends the helper with status 1 and a diagnostic, nothing having been
    sent. *)
Theorem startup_failure_exits_with_1 (lib : Lib) {W} (os : OS W) (n : nat)
    (o o1 : W) (e : exn) :
  exn_cls e <> KeyboardInterrupt ->
  fcntl_GETFL os stdin_fd o = (Exc e, o1)
  \/ (exists flags o0,
        fcntl_GETFL os stdin_fd o = (Ret flags, o0)
        /\ fcntl_SETFL os stdin_fd (Z.lor flags (O_NONBLOCK os)) o0
           = (Exc e, o1)) ->
  main lib os n o =
  (Exited 1,
   {| self := PtyHelper_init; sent := [];
      stderr := [lit "PTY helper error: " ++ exn_text e ++ [NL]];
      outside := o1 |}).
Proof.
  intros Hki Hfcntl.
  assert (Hrun : run lib os n (start o) = (Raised e, with_outside (start o) o1)).
  { unfold run, _set_nonblocking. unfold_M. simpl.
    destruct Hfcntl as [-> | (flags & o0 & -> & Hset)]; [reflexivity|].
    simpl. rewrite Hset. reflexivity. }
  unfold main. rewrite Hrun. simpl. unfold isinstance, is_class.
  rewrite bool_decide_eq_false_2 by exact Hki.
  destruct (exn_cls e); try reflexivity. congruence.
Qed.

(** Standard input is a descriptor [fcntl] refuses. *)
Lemma startup_failure_exits_with_1_witness :
  (main Script.lib (Cases.without_fcntl [quiet]) 3 0%nat).1 = Exited 1
  /\ sent (main Script.lib (Cases.without_fcntl [quiet]) 3 0%nat).2 = [].
Proof.
  rewrite (startup_failure_exits_with_1 Script.lib
             (Cases.without_fcntl [quiet]) 3 0%nat 0%nat Cases.EBADF).
  - split; reflexivity.
  - discriminate.
  - left. reflexivity.
Defined.

Section KillRounds.

Context (lib : Lib) {W : Type} (os : OS W).

(** [kill], with the state of the outside world followed. *)
Lemma kill_run (w : world W) (a : answer unit) (o : W) :
  (forall p, pid (self w) = Some p ->
             os_kill os p SIGTERM (outside w) = (a, o) /\ delivered_or_gone a) ->
  (pid (self w) = None -> o = outside w) ->
  kill os w =
  (Done tt,
   {| self := stop_running (self w); sent := sent w ++ [Killed];
      stderr := stderr w; outside := (stdout_write os Killed o).2 |}).
Proof.
  intros Hkill Hnone. unfold kill. unfold_M.
  destruct (pid (self w)) as [p|] eqn:Hpid.
  - destruct (Hkill p eq_refl) as [Hk Ha]. rewrite Hk.
    destruct a as [[]|e]; simpl in Ha |- *.
    + rewrite _send_eq. unfold stop_running. simpl. rewrite Hpid.
      reflexivity.
    + unfold is_class. rewrite Ha, bool_decide_eq_true_2 by reflexivity.
      rewrite _send_eq. unfold stop_running. simpl. rewrite Hpid.
      reflexivity.
  - rewrite (Hnone eq_refl). rewrite _send_eq. unfold stop_running. simpl.
    rewrite Hpid. reflexivity.
Qed.

(** The commands of a round that holds one line, a kill command. *)
Lemma read_commands_kill (readable : list Z) (buffer line rest : str)
    (chunk : bytes) (cmd : gmap (list N) json) (w : world W)
    (a : answer unit) (o2 o3 : W) :
  stdin_fd ∈ readable ->
  os_read os stdin_fd 4096 (outside w) = (Ret chunk, o2) ->
  chunk <> [] ->
  split_newline (buffer ++ decode_replace lib chunk) = Some (line, rest) ->
  split_newline rest = None ->
  strip_nonempty line = true ->
  json_loads lib line = Ret (JObj cmd) ->
  cmd !! lit "type" = Some (JStr (lit "kill")) ->
  (forall p, pid (self w) = Some p ->
             os_kill os p SIGTERM o2 = (a, o3) /\ delivered_or_gone a) ->
  (pid (self w) = None -> o3 = o2) ->
  read_commands lib os readable buffer w =
  (Done (Continue rest),
   {| self := stop_running (self w); sent := sent w ++ [Killed];
      stderr := stderr w; outside := (stdout_write os Killed o3).2 |}).
Proof.
  intros Hin Hread Hchunk Hsplit Hrest Hline Hloads Htype Hkill Hnone.
  assert (Hcmd : _handle_command lib os line (with_outside w o2) =
                 kill os (with_outside w o2)).
  { unfold _handle_command. unfold_M. rewrite Hloads. simpl.
    unfold dict_get. rewrite Htype. reflexivity. }
  pose proof (kill_run (with_outside w o2) a o3 Hkill Hnone) as Hrun.
  unfold read_commands. rewrite bool_decide_eq_true_2 by exact Hin.
  unfold try_except, mbind, M_bind, call. rewrite Hread.
  destruct chunk as [|c chunk]; [congruence|].
  rewrite (split_newline_length _ _ _ Hsplit).
  rewrite (dispatch_lines_step _ _ _ _ _ _ _ Hsplit Hline).
  rewrite Hcmd, Hrun.
  rewrite dispatch_lines_no_newline by exact Hrest. reflexivity.
Qed.

End KillRounds.

(** X13. An interrupt that reaches the helper while it waits in [select]
    makes [main] kill the child: when the signal is delivered or the child
    is gone, one killed event is sent, the Session is marked as not running
    and [main] returns.  The helper then exits with status 0 when the
    interpreter can flush its standard streams, and with status 120 when it
    cannot, as after a write of the killed event that failed. *)
Theorem interrupt_kills_and_exits (lib : Lib) {W} (os : OS W) (n : nat)
    (buffer : str) (w : world W) (e : exn) (a : answer unit) (o o1 : W) :
  select_select os (watched (self w)) (outside w) = (Exc e, o) ->
  exn_cls e = KeyboardInterrupt ->
  (forall p, pid (self w) = Some p ->
             os_kill os p SIGTERM o = (a, o1) /\ delivered_or_gone a) ->
  (pid (self w) = None -> o1 = o) ->
  exists w',
    interpreter_exit os (main_handlers os (loop lib os (S n) buffer w))
    = (Exited (if flush_std_files os (stdout_write os Killed o1).2
               then 0 else 120), w')
    /\ sent w' = sent w ++ [Killed]
    /\ running (self w') = false
    /\ pid (self w') = pid (self w).
Proof.
  intros Hsel Hcls Hkill Hnone.
  assert (Hloop : loop lib os (S n) buffer w = (Raised e, with_outside w o)).
  { simpl. unfold round. unfold_M. simpl. rewrite Hsel. simpl.
    rewrite Hcls. reflexivity. }
  rewrite Hloop. simpl. unfold isinstance, is_class. rewrite Hcls.
  rewrite bool_decide_eq_true_2 by reflexivity.
  rewrite (kill_run os (with_outside w o) a o1 Hkill Hnone).
  eexists. split; [reflexivity|]. repeat split.
Qed.

(** An interrupt while child 100 runs, with the plugin listening and with
    the plugin gone. *)
Lemma interrupt_kills_and_exits_witness :
  (exists w',
     interpreter_exit (scripted [Cases.select_raises Cases.EINTR])
       (main_handlers (scripted [Cases.select_raises Cases.EINTR])
          (loop Script.lib (scripted [Cases.select_raises Cases.EINTR]) 3 []
             (active 0)))
     = (Exited 0, w')
     /\ sent w' = [Spawned 100; Killed]
     /\ running (self w') = false)
  /\ (exists w',
        interpreter_exit (Cases.stdout_closed [Cases.select_raises Cases.EINTR])
          (main_handlers (Cases.stdout_closed [Cases.select_raises Cases.EINTR])
             (loop Script.lib
                (Cases.stdout_closed [Cases.select_raises Cases.EINTR]) 3 []
                (active 0)))
        = (Exited 120, w')
        /\ running (self w') = false).
Proof.
  split.
  - destruct (interrupt_kills_and_exits Script.lib
                (scripted [Cases.select_raises Cases.EINTR]) 2 [] (active 0)
                Cases.EINTR
                (Exc (Exn ProcessLookupError (lit "[Errno 3] No such process")))
                1%nat 1%nat eq_refl eq_refl)
      as (w' & Hmain & Hsent & Hrunning & _).
    + intros p _. split; reflexivity.
    + discriminate.
    + exists w'. split; [exact Hmain | split; [exact Hsent | exact Hrunning]].
  - destruct (interrupt_kills_and_exits Script.lib
                (Cases.stdout_closed [Cases.select_raises Cases.EINTR]) 2 []
                (active 0) Cases.EINTR
                (Exc (Exn ProcessLookupError (lit "[Errno 3] No such process")))
                1%nat 1%nat eq_refl eq_refl)
      as (w' & Hmain & _ & Hrunning & _).
    + intros p _. split; reflexivity.
    + discriminate.
    + exists w'. split; [exact Hmain | exact Hrunning].
Defined.

(** X15. A kill command that finds no process id on record sends its
    killed event and does not end the loop: the helper goes on to the next
    round. *)
Theorem kill_without_child_keeps_looping
    (lib : Lib) {W} (os : OS W) (readable : list Z) (buffer line rest : str)
    (chunk : bytes) (cmd : gmap (list N) json) (w : world W) (o1 o2 : W) :
  select_select os (watched (self w)) (outside w) = (Ret readable, o1) ->
  stdin_fd ∈ readable ->
  os_read os stdin_fd 4096 o1 = (Ret chunk, o2) ->
  chunk <> [] ->
  split_newline (buffer ++ decode_replace lib chunk) = Some (line, rest) ->
  split_newline rest = None ->
  strip_nonempty line = true ->
  json_loads lib line = Ret (JObj cmd) ->
  cmd !! lit "type" = Some (JStr (lit "kill")) ->
  pid (self w) = None ->
  (forall fd, master_fd (self w) = Some fd -> fd ∉ readable) ->
  exists w',
    round lib os buffer w = (Done (Continue rest), w')
    /\ sent w' = sent w ++ [Killed]
    /\ self w' = stop_running (self w).
Proof.
  intros Hsel Hin Hread Hchunk Hsplit Hrest Hline Hloads Htype Hpid Hmaster.
  assert (Hc := read_commands_kill lib os readable buffer line rest chunk cmd
                  (with_outside w o1) (Ret tt) o2 o2 Hin Hread Hchunk Hsplit
                  Hrest Hline Hloads Htype).
  simpl in Hc. rewrite Hpid in Hc.
  specialize (Hc ltac:(discriminate) ltac:(reflexivity)).
  assert (Hround : round lib os buffer w =
            (Done (Continue rest),
             {| self := stop_running (self w); sent := sent w ++ [Killed];
                stderr := stderr w;
                outside := (stdout_write os Killed o2).2 |})).
  { unfold round, read_output.
    unfold mbind, M_bind, get_self, try_except, call, isinstance, mret, M_ret.
    simpl. rewrite Hsel. simpl. rewrite Hc. simpl.
    destruct (master_fd (self w)) as [fd|] eqn:Hfd.
    - rewrite bool_decide_eq_false_2 by (apply Hmaster; reflexivity).
      unfold pass, mret, M_ret. simpl. rewrite Hpid. reflexivity.
    - unfold pass, mret, M_ret. simpl. rewrite Hpid. reflexivity. }
  eexists. split; [exact Hround|]. split; reflexivity.
Qed.

(** A kill command before any spawn. *)
Lemma kill_without_child_keeps_looping_witness :
  exists w',
    round Script.lib (scripted [plugin_sends (ln "{'type':'kill'}") quiet])
      [] (idle 0) = (Done (Continue []), w')
    /\ sent w' = [Killed]
    /\ self w' = PtyHelper_init.
Proof.
  apply (kill_without_child_keeps_looping Script.lib
           (scripted [plugin_sends (ln "{'type':'kill'}") quiet]) [stdin_fd]
           [] (text "{'type':'kill'}") []
           (raw (text (ln "{'type':'kill'}")))
           (list_to_map [(lit "type", JStr (lit "kill"))]) (idle 0)
           1%nat 1%nat); try reflexivity.
  - constructor.
  - discriminate.
  - discriminate.
Defined.

(** X16. When a kill command and the end of the child are seen in the same
    round, the process id is cleared before the loop looks at it: the killed
    and the exit event are both sent and the loop does not end. *)
Theorem kill_and_exit_in_one_round
    (lib : Lib) {W} (os : OS W) (readable : list Z) (buffer line rest : str)
    (chunk : bytes) (cmd : gmap (list N) json) (w : world W) (p fd : Z)
    (a : answer unit) (r : answer bytes) (o1 o2 o3 o4 : W) :
  select_select os (watched (self w)) (outside w) = (Ret readable, o1) ->
  stdin_fd ∈ readable ->
  os_read os stdin_fd 4096 o1 = (Ret chunk, o2) ->
  chunk <> [] ->
  split_newline (buffer ++ decode_replace lib chunk) = Some (line, rest) ->
  split_newline rest = None ->
  strip_nonempty line = true ->
  json_loads lib line = Ret (JObj cmd) ->
  cmd !! lit "type" = Some (JStr (lit "kill")) ->
  pid (self w) = Some p ->
  os_kill os p SIGTERM o2 = (a, o3) ->
  delivered_or_gone a ->
  master_fd (self w) = Some fd ->
  fd ∈ readable ->
  os_read os fd 16384 (stdout_write os Killed o3).2 = (r, o4) ->
  r = Ret [] \/ fails r ->
  terminated (os_waitpid os p o4).1 ->
  exists code w',
    round lib os buffer w = (Done (Continue rest), w')
    /\ sent w' = sent w ++ [Killed; Exit code]
    /\ pid (self w') = None.
Proof.
  intros Hsel Hin Hread Hchunk Hsplit Hrest Hline Hloads Htype Hpid Hkill Ha
    Hfd Hinfd Hreadm Hr Hterm.
  assert (Hc := read_commands_kill lib os readable buffer line rest chunk cmd
                  (with_outside w o1) a o2 o3 Hin Hread Hchunk Hsplit
                  Hrest Hline Hloads Htype).
  simpl in Hc. rewrite Hpid in Hc.
  specialize (Hc ltac:(intros ? [= <-]; split; assumption)
                 ltac:(discriminate)).
  set (w2 := {| self := stop_running (self w); sent := sent w ++ [Killed];
                stderr := stderr w; outside := o4 |}).
  destruct (_check_exit_done os w2 p Hpid Hterm) as [o5 Hexit].
  assert (Hround : round lib os buffer w =
            (Done (Continue rest),
             {| self := reaped (self w);
                sent := (sent w ++ [Killed])
                        ++ [Exit (reported_code (os_waitpid os p o4).1)];
                stderr := stderr w; outside := o5 |})).
  { unfold round, read_output.
    unfold mbind, M_bind, get_self, try_except, call, isinstance, mret, M_ret.
    simpl. rewrite Hsel. simpl. rewrite Hc. simpl. rewrite Hfd.
    rewrite bool_decide_eq_true_2 by exact Hinfd. simpl. rewrite Hreadm.
    unfold with_outside. simpl. fold w2.
    destruct Hr as [-> | Hr].
    - rewrite Hexit. reflexivity.
    - destruct r as [b|e]; simpl in Hr; [contradiction|]. rewrite Hr.
      rewrite Hexit. reflexivity. }
  eexists _, _. split; [exact Hround|]. split; [|reflexivity].
  simpl. rewrite <- app_assoc. reflexivity.
Qed.

(** Child 100 has exited when the kill command arrives. *)
Lemma kill_and_exit_in_one_round_witness :
  exists code w',
    round Script.lib (scripted Cases.kill_meets_exit) [] (active 0)
      = (Done (Continue []), w')
    /\ sent w' = [Spawned 100; Killed; Exit code]
    /\ pid (self w') = None.
Proof.
  apply (kill_and_exit_in_one_round Script.lib
           (scripted Cases.kill_meets_exit) [stdin_fd; 5] []
           (text "{'type':'kill'}") []
           (raw (text (ln "{'type':'kill'}")))
           (list_to_map [(lit "type", JStr (lit "kill"))]) (active 0)
           100 5 (Ret tt) (Exc EIO) 1%nat 1%nat 1%nat 1%nat
           eq_refl ltac:(constructor) eq_refl ltac:(discriminate) eq_refl
           eq_refl eq_refl eq_refl eq_refl eq_refl eq_refl I eq_refl
           ltac:(repeat constructor) eq_refl (or_intror eq_refl)
           ltac:(simpl; lia)).
Defined.

(** ** Exit codes and single operations *)

Lemma land_127 (z : Z) : Z.land z 127 = z mod 128.
Proof. change 127 with (Z.ones 7). rewrite Z.land_ones by lia. reflexivity. Qed.

Lemma land_255 (z : Z) : Z.land z 255 = z mod 256.
Proof. change 255 with (Z.ones 8). rewrite Z.land_ones by lia. reflexivity. Qed.

(** X17. The exit code reads the wait status back: a child that exited with
    code [c] is reported with [c], a child ended by signal [s] with [- s],
    with or without a core dump; and whatever the status, the code lies
    between -126 and 255. *)
Theorem exit_code_decodes_status :
  (forall c, 0 <= c <= 255 -> exit_code (c * 256) = c)
  /\ (forall s core, 1 <= s <= 126 -> core = 0 \/ core = 128 ->
        exit_code (s + core) = - s)
  /\ (forall status, -126 <= exit_code status <= 255).
Proof.
  unfold exit_code, WIFEXITED, WEXITSTATUS, WIFSIGNALED, WTERMSIG, signed_char.
  split; [|split].
  - intros c Hc. rewrite land_127, land_255, Z.shiftr_div_pow2 by lia.
    change (2 ^ 8) with 256.
    replace (c * 256 mod 128) with 0
      by (symmetry; apply Z.mod_divide; [lia | exists (c * 2); lia]).
    simpl. rewrite Z.div_mul by lia. apply Z.mod_small. lia.
  - intros s core Hs Hcore. rewrite !land_127.
    assert (Hmod : (s + core) mod 128 = s).
    { destruct Hcore as [-> | ->].
      - rewrite Z.add_0_r. apply Z.mod_small. lia.
      - replace (s + 128) with (s + 1 * 128) by lia.
        rewrite Z.mod_add by lia. apply Z.mod_small. lia. }
    rewrite Hmod.
    destruct (Z.eqb_spec s 0) as [|_]; [lia|].
    rewrite (Z.mod_small (s + 1) 256) by lia.
    destruct (Z.leb_spec 128 (s + 1)) as [|_]; [lia|].
    rewrite Z.shiftr_div_pow2 by lia. change (2 ^ 1) with 2.
    destruct (Z.ltb_spec 0 ((s + 1) / 2)) as [_|Hle]; [reflexivity|].
    exfalso. assert (1 <= (s + 1) / 2) by (apply Z.div_le_lower_bound; lia).
    lia.
  - intros status. rewrite !land_127, land_255.
    pose proof (Z.mod_pos_bound status 128 ltac:(lia)) as Ht.
    pose proof (Z.mod_pos_bound (Z.shiftr status 8) 256 ltac:(lia)) as Hx.
    destruct (status mod 128 =? 0); [lia|].
    destruct (0 <? _) eqn:Hsig; [|lia].
    apply Z.ltb_lt in Hsig.
    rewrite Z.shiftr_div_pow2 in Hsig by lia. change (2 ^ 1) with 2 in Hsig.
    assert (Hs : status mod 128 <= 126); [|lia].
    destruct (Z.eq_dec (status mod 128) 127) as [Heq|]; [|lia].
    rewrite Heq in Hsig. vm_compute in Hsig. discriminate.
Qed.

(** Exit code 3; signal 15; signal 11 with a core dump. *)
Lemma exit_code_decodes_status_witness :
  exit_code 768 = 3 /\ exit_code 15 = -15 /\ exit_code 139 = -11.
Proof.
  destruct exit_code_decodes_status as (Hexit & Hsig & _).
  split; [|split].
  - apply (Hexit 3). lia.
  - apply (Hsig 15 0); [lia | left; reflexivity].
  - apply (Hsig 11 128); [lia | right; reflexivity].
Defined.

(** X18. The exit check reports nothing for a child that has not
    terminated: when no process id is on record, when [waitpid] returns 0,
    and when it raises anything but [ChildProcessError], no event is sent
    and the fields stay as they are. *)
Theorem exit_is_reported_only_after_termination {W} (os : OS W)
    (w : world W) :
  (forall p, pid (self w) = Some p ->
             ~ terminated (os_waitpid os p (outside w)).1) ->
  sent (_check_exit os w).2 = sent w /\ self (_check_exit os w).2 = self w.
Proof.
  intros Hlive. unfold _check_exit. unfold_M.
  destruct (pid (self w)) as [p|]; [|split; reflexivity].
  specialize (Hlive p eq_refl).
  destruct (os_waitpid os p (outside w)) as [[[p' status]|e] o];
    simpl in Hlive |- *.
  - destruct (Z.eqb_spec p' 0) as [|Hne]; [split; reflexivity|].
    contradiction.
  - unfold is_class. rewrite bool_decide_eq_false_2 by exact Hlive.
    split; reflexivity.
Qed.

(** The PTY seems at its end but child 100 is still running. *)
Lemma exit_is_reported_only_after_termination_witness :
  sent (_check_exit (scripted [waitpid_answers (Ret (0, 0)) quiet])
          (active 1)).2 = [Spawned 100]
  /\ self (_check_exit (scripted [waitpid_answers (Ret (0, 0)) quiet])
             (active 1)).2 = self (active 1).
Proof.
  apply (exit_is_reported_only_after_termination
           (scripted [waitpid_answers (Ret (0, 0)) quiet]) (active 1)).
  intros p _ H. apply H. reflexivity.
Defined.

(** X19. A write that the system accepts is not acknowledged, and the number
    of bytes it took is not looked at: whether all of the data or only part
    of it was written, nothing is sent, nothing is written again, and the
    helper is as it was. *)
Theorem write_success_is_silent (lib : Lib) {W} (os : OS W) (s : str)
    (b : bytes) (taken fd : Z) (w : world W) (o : W) :
  master_fd (self w) = Some fd ->
  encode_utf8 lib s = Ret b ->
  os_write os fd b (outside w) = (Ret taken, o) ->
  write lib os (JStr s) w = (Done tt, with_outside w o).
Proof.
  intros Hfd Henc Hwrite. unfold write, encode. unfold_M.
  rewrite Hfd, Henc. simpl. rewrite Hwrite. reflexivity.
Qed.

(** Of the data [x] the PTY takes no byte at all. *)
Lemma write_success_is_silent_witness :
  write Script.lib (scripted [write_answers (Ret 0) quiet]) (JStr (lit "x"))
    (active 1) = (Done tt, active 1).
Proof.
  apply (write_success_is_silent Script.lib
           (scripted [write_answers (Ret 0) quiet]) (lit "x")
           (raw (lit "x")) 0 5 (active 1) 1%nat); reflexivity.
Defined.

(** X20. When the fork of a spawn succeeds but the PTY master cannot be made
    non-blocking, the child is on record and marked as running, and no
    spawned event has been sent for it. *)
Theorem spawn_unannounced_when_fcntl_fails {W} (os : OS W)
    (cmd args cwd : json) (d : gmap (list N) json) (w : world W)
    (p fd : Z) (e : exn) (o1 o2 : W) :
  pty_fork os (outside w) = (Ret (p, fd), o1) ->
  p <> 0 ->
  fcntl_GETFL os fd o1 = (Exc e, o2)
  \/ (exists flags o,
        fcntl_GETFL os fd o1 = (Ret flags, o)
        /\ fcntl_SETFL os fd (Z.lor flags (O_NONBLOCK os)) o = (Exc e, o2)) ->
  spawn os cmd args cwd (JObj d) w =
  (Raised e,
   {| self := {| master_fd := Some fd; pid := Some p; running := true |};
      sent := sent w; stderr := stderr w; outside := o2 |}).
Proof.
  intros Hfork Hp Hfcntl. unfold spawn, merged_env, _set_nonblocking.
  unfold_M. rewrite Hfork. simpl. apply Z.eqb_neq in Hp. rewrite Hp. simpl.
  destruct Hfcntl as [-> | (flags & o & -> & Hset)]; [reflexivity|].
  simpl. rewrite Hset. reflexivity.
Qed.

(** Child 100 is forked on a descriptor [fcntl] refuses. *)
Lemma spawn_unannounced_when_fcntl_fails_witness :
  spawn (Cases.without_fcntl [fork_answers (Ret (100, 5)) quiet])
    (JStr (lit "/bin/echo")) (JArr []) (JStr (lit "/")) (JObj ∅) (idle 1)
  = (Raised Cases.EBADF,
     {| self := {| master_fd := Some 5; pid := Some 100; running := true |};
        sent := []; stderr := []; outside := 1%nat |}).
Proof.
  apply (spawn_unannounced_when_fcntl_fails
           (Cases.without_fcntl [fork_answers (Ret (100, 5)) quiet])
           (JStr (lit "/bin/echo")) (JArr []) (JStr (lit "/")) ∅ (idle 1)
           100 5 Cases.EBADF 1%nat 1%nat).
  - reflexivity.
  - lia.
  - left. reflexivity.
Defined.

(** X21. In the child a working directory that cannot be entered is passed
    over: the program is run all the same, with the command as its first
    argument and the merged environment, and nothing is sent. *)
Theorem child_runs_despite_bad_cwd {W} (os : OS W) (cmd cwd : json)
    (l : list json) (d : gmap (list N) json) (w : world W) (fd : Z)
    (e : exn) (o1 o2 o3 : W) :
  pty_fork os (outside w) = (Ret (0, fd), o1) ->
  os_chdir os cwd o1 = (Exc e, o2) ->
  is_OSError (exn_cls e) = true ->
  os_execvpe os cmd (cmd :: l) (d ∪ (JStr <$> environ os)) o2 = (None, o3) ->
  spawn os cmd (JArr l) cwd (JObj d) w =
  (Execed,
   {| self := {| master_fd := Some fd; pid := Some 0;
                 running := running (self w) |};
      sent := sent w; stderr := stderr w; outside := o3 |}).
Proof.
  intros Hfork Hchdir Hos Hexec. unfold spawn, merged_env, argv_of, execvpe.
  unfold_M. rewrite Hfork. simpl. rewrite Hchdir, Hos. simpl.
  rewrite Hexec. reflexivity.
Qed.

(** The directory [/gone] does not exist; [/bin/echo] is run. *)
Lemma child_runs_despite_bad_cwd_witness :
  spawn (Cases.without_cwd [fork_answers (Ret (0, 5)) quiet])
    (JStr (lit "/bin/echo")) (JArr [JStr (lit "hi")]) (JStr (lit "/gone"))
    (JObj ∅) (idle 1)
  = (Execed,
     {| self := {| master_fd := Some 5; pid := Some 0; running := false |};
        sent := []; stderr := []; outside := 1%nat |}).
Proof.
  apply (child_runs_despite_bad_cwd
           (Cases.without_cwd [fork_answers (Ret (0, 5)) quiet])
           (JStr (lit "/bin/echo")) (JStr (lit "/gone")) [JStr (lit "hi")] ∅
           (idle 1) 5 ENOENT 1%nat 1%nat 1%nat); reflexivity.
Defined.
